(** * nataly plugin (run.py): a shallow embedding and its verified properties

    The program is a one-pass command-line adapter: it parses its arguments
    with [argparse], validates the UTC offset, asks the external [nataly]
    library for a natal chart, shapes a summary record and prints it as text
    and/or JSON.

    Conventions of the embedding.
    - A Python [str] is a [string]; a character is a code point below 256.
    - Values whose Python type is dynamic ([Any], attributes read with
      [getattr], the argparse namespace) are [PyVal]s.
    - Python's [float] and the conversions the interpreter provides for it
      are parameters ([PyBuiltins]); so is the [nataly] library ([Nataly])
      and the process environment ([OsEnv]).
    - Effects are explicit: a computation returns the events it produced
      (prints, library calls, dataclass constructions) and either a value or
      a raised exception. *)

From Stdlib Require Import String Ascii List ZArith Bool Lia DecimalString.
Import ListNotations.
Open Scope list_scope.
Open Scope string_scope.

Set Implicit Arguments.

(* ===================================================================== *)
(** ** Python strings *)

Module PyStr.

Definition code (c : ascii) : nat := nat_of_ascii c.

(** [str.isspace] on code points below 256. *)
Definition isspace (c : ascii) : bool :=
  let n := code c in
  (Nat.leb 9 n && Nat.leb n 13) || (Nat.leb 28 n && Nat.leb n 32)
  || Nat.eqb n 133 || Nat.eqb n 160.

(** [\d] / [str.isdecimal] on code points below 256: only 0-9. *)
Definition isdigit (c : ascii) : bool :=
  let n := code c in Nat.leb 48 n && Nat.leb n 57.

Fixpoint lstrip (s : string) : string :=
  match s with
  | EmptyString => EmptyString
  | String c r => if isspace c then lstrip r else s
  end.

Fixpoint rstrip (s : string) : string :=
  match s with
  | EmptyString => EmptyString
  | String c r =>
      match rstrip r with
      | EmptyString => if isspace c then EmptyString else String c EmptyString
      | r' => String c r'
      end
  end.

(** [s.strip()] *)
Definition strip (s : string) : string := rstrip (lstrip s).

(** [s.startswith(p)] *)
Fixpoint startswith (s p : string) : bool :=
  match p, s with
  | EmptyString, _ => true
  | String a p', String b s' => Ascii.eqb a b && startswith s' p'
  | String _ _, EmptyString => false
  end.

(** [c in s] *)
Fixpoint contains (c : ascii) (s : string) : bool :=
  match s with
  | EmptyString => false
  | String a r => Ascii.eqb a c || contains c r
  end.

(** [s.split(c, 1)] when [c] occurs in [s]: the text before the first
    [c] and the text after it. *)
Fixpoint split1 (c : ascii) (s : string) : string * string :=
  match s with
  | EmptyString => (EmptyString, EmptyString)
  | String a r =>
      if Ascii.eqb a c then (EmptyString, r)
      else let (h, t) := split1 c r in (String a h, t)
  end.

(** [sep.join(l)] *)
Fixpoint join (sep : string) (l : list string) : string :=
  match l with
  | [] => EmptyString
  | [x] => x
  | x :: r => x ++ sep ++ join sep r
  end.

(** [str(n)] for an [int]. *)
Definition of_Z (z : Z) : string := NilZero.string_of_int (Z.to_int z).

(** Truthiness of a [str]: non-empty. *)
Definition truthy (s : string) : bool :=
  match s with EmptyString => false | _ => true end.

(** [f"{s:<n}"]: left-justify in a field of width [n]. *)
Fixpoint ljust (n : nat) (s : string) : string :=
  match n, s with
  | O, _ => s
  | S n', EmptyString => String " " (ljust n' EmptyString)
  | S n', String c r => String c (ljust n' r)
  end.

End PyStr.

(* ===================================================================== *)
(** ** Regular expressions ([re]) *)

Module Re.

(** One item of a bracket expression. *)
Inductive item :=
| One (c : ascii)
| Range (lo hi : ascii).

Inductive t :=
| Void
| Eps
| Chr (c : ascii)
| Digit                 (* \d *)
| Bracket (items : list item)
| Seq (r1 r2 : t)
| Alt (r1 r2 : t)
| Star (r : t).

Definition item_mem (c : ascii) (i : item) : bool :=
  match i with
  | One a => Ascii.eqb a c
  | Range lo hi =>
      Nat.leb (nat_of_ascii lo) (nat_of_ascii c)
      && Nat.leb (nat_of_ascii c) (nat_of_ascii hi)
  end.

Fixpoint nullable (r : t) : bool :=
  match r with
  | Void | Chr _ | Digit | Bracket _ => false
  | Eps | Star _ => true
  | Seq a b => nullable a && nullable b
  | Alt a b => nullable a || nullable b
  end.

Fixpoint deriv (c : ascii) (r : t) : t :=
  match r with
  | Void | Eps => Void
  | Chr a => if Ascii.eqb a c then Eps else Void
  | Digit => if PyStr.isdigit c then Eps else Void
  | Bracket l => if existsb (item_mem c) l then Eps else Void
  | Seq a b =>
      if nullable a then Alt (Seq (deriv c a) b) (deriv c b)
      else Seq (deriv c a) b
  | Alt a b => Alt (deriv c a) (deriv c b)
  | Star a => Seq (deriv c a) (Star a)
  end.

(** The whole of [s] is in the language of [r]. *)
Fixpoint fullmatch (r : t) (s : string) : bool :=
  match s with
  | EmptyString => nullable r
  | String c s' => fullmatch (deriv c r) s'
  end.

(** [$] without [re.MULTILINE]: the end of the string, or the position
    just before a newline that ends the string. *)
Definition dollar : t := Alt Eps (Chr "010"%char).

Definition plus (r : t) : t := Seq r (Star r).

End Re.

(** [_TZ_RE = re.compile(r"^[+-](?:0\d|1\d|2[0-3]):[0-5]\d$")] *)
Definition _TZ_RE : Re.t :=
  Re.Seq (Re.Bracket [Re.One "+"%char; Re.One "-"%char])
  (Re.Seq (Re.Alt (Re.Seq (Re.Chr "0"%char) Re.Digit)
          (Re.Alt (Re.Seq (Re.Chr "1"%char) Re.Digit)
                  (Re.Seq (Re.Chr "2"%char)
                          (Re.Bracket [Re.Range "0"%char "3"%char]))))
  (Re.Seq (Re.Chr ":"%char)
  (Re.Seq (Re.Bracket [Re.Range "0"%char "5"%char])
  (Re.Seq Re.Digit Re.dollar)))).

(** [_TZ_RE.match(s)] is not [None].  The pattern is anchored at both ends,
    so a match is a match of the whole string. *)
Definition tz_re_match (s : string) : bool := Re.fullmatch _TZ_RE s.

(* ===================================================================== *)
(** ** Dynamic values, exceptions and effects *)

Section Plugin.

(** The carrier of Python's [float]. *)
Variable F : Type.

(** A Python value whose type the source leaves dynamic.  A [PyObj] is an
    object of a library class, known by its class name and its data
    attributes; it has no methods, is not iterable and is not a dataclass
    instance. *)
#[warnings="-register-all"]
Inductive PyVal :=
| PyNone
| PyBool (b : bool)
| PyInt (z : Z)
| PyFloat (f : F)
| PyStr (s : string)
| PyList (l : list PyVal)
| PyDict (d : list (PyVal * PyVal))
| PyObj (cls : string) (attrs : list (string * PyVal)).

(** A raised exception.  [Exception] stands for every instance of the
    class [Exception]; [SystemExit] and [BaseException] are the ones an
    [except Exception] clause does not catch. *)
Inductive Exn :=
| Exception (cls msg : string)
| SystemExit (code : Z)
| BaseException (cls msg : string).

Inductive Result (A : Type) :=
| Ok (a : A)
| Raise (e : Exn).
Arguments Ok {A} a.
Arguments Raise {A} e.

(** Calls into the [nataly] library. *)
Inductive LibCall :=
| Call_to_utc (birth tz : string)
| Call_isoformat (dt : PyVal)
| Call_create_orb_config (house_system : string)
| Call_NatalChart (person_name : string) (dt_utc : PyVal) (lat lon : F)
                  (orb_config : PyVal) (ephe_path : option string)
| Call_get_body_by_name (name : string).

(** The errors of [argparse]. *)
Inductive ArgparseError :=
| AmbiguousOption (option : string) (matches : list string)
| ExpectedOneArgument (option_string : string)
| IgnoredExplicitArgument (option_string explicit : string)
| InvalidFloatValue (option_string value : string)
| InvalidChoice (option_string value : string) (allowed : list string)
| RequiredArguments (names : list string)
| UnrecognizedArguments (args : list string).

(** What [argparse] writes before it exits. *)
Inductive ArgparseText :=
| HelpText                             (* the help, to standard output *)
| UsageAndError (e : ArgparseError).   (* usage and error line, to standard error *)

Inductive Event :=
| Print (line : string)          (* print(line) *)
| PrintJson (payload : PyVal)    (* print(json.dumps(payload, ensure_ascii=False, indent=2)) *)
| PrintErr (line : string)       (* print(line, file=sys.stderr) *)
| Argparse (text : ArgparseText)
| Call (c : LibCall)
| Construct (cls : string).      (* a dataclass constructor ran *)

(** A computation: the events it produced, and its outcome. *)
Definition M (A : Type) : Type := list Event * Result A.

Definition ret {A} (a : A) : M A := ([], Ok a).
Definition raise {A} (e : Exn) : M A := ([], Raise e).
Definition emit (e : Event) : M unit := ([e], Ok tt).
Definition lift {A} (r : Result A) : M A := ([], r).

Definition bind {A B} (m : M A) (k : A -> M B) : M B :=
  match m with
  | (t, Ok a) => let (t', r) := k a in ((t ++ t')%list, r)
  | (t, Raise e) => (t, Raise e)
  end.

Notation "x <- m ;; k" := (bind m (fun x => k))
  (at level 61, m at next level, right associativity).
Notation "m ;;; k" := (bind m (fun _ => k))
  (at level 61, right associativity).

Definition trace {A} (m : M A) : list Event := fst m.
Definition outcome {A} (m : M A) : Result A := snd m.

(** [try: m  except Exception as exc: h exc] *)
Definition try_except {A} (m : M A) (h : string -> string -> M A) : M A :=
  match m with
  | (t, Raise (Exception cls msg)) =>
      let (t', r) := h cls msg in ((t ++ t')%list, r)
  | _ => m
  end.

(** A call into the library: logged, then its result. *)
Definition call {A} (c : LibCall) (r : Result A) : M A :=
  emit (Call c) ;;; lift r.

Fixpoint mapM {A B} (f : A -> M B) (l : list A) : M (list B) :=
  match l with
  | [] => ret []
  | x :: r => y <- f x ;; ys <- mapM f r ;; ret (y :: ys)
  end.

Fixpoint forM_ {A} (l : list A) (f : A -> M unit) : M unit :=
  match l with
  | [] => ret tt
  | x :: r => f x ;;; forM_ r f
  end.

(** What standard output and standard error received. *)
Definition is_stdout (e : Event) : bool :=
  match e with
  | Print _ | PrintJson _ | Argparse HelpText => true
  | _ => false
  end.

Definition is_stderr (e : Event) : bool :=
  match e with
  | PrintErr _ | Argparse (UsageAndError _) => true
  | _ => false
  end.

Definition is_call (e : Event) : bool :=
  match e with Call _ => true | _ => false end.

Definition stdout (t : list Event) : list Event := filter is_stdout t.
Definition stderr (t : list Event) : list Event := filter is_stderr t.
Definition calls (t : list Event) : list Event := filter is_call t.

(* ===================================================================== *)
(** ** Interpreter built-ins *)

(** The built-ins whose results depend on the floating-point format or on
    [repr], taken as parameters. *)
Record PyBuiltins := {
  float_of_str : string -> option F;   (* float(s); None: ValueError *)
  float_of_int : Z -> option F;        (* float(n); None: OverflowError *)
  int_of_float : F -> option Z;        (* int(x); None: OverflowError / ValueError *)
  int_of_str : string -> option Z;     (* int(s); None: ValueError *)
  float_ltb : F -> F -> bool;          (* x < y *)
  float_truthy : F -> bool;            (* bool(x) *)
  float_zero : F;                      (* 0.0 *)
  str_other : PyVal -> string          (* str() of a float, a non-empty list, a dict or an object *)
}.

Variable B : PyBuiltins.

Definition type_name (v : PyVal) : string :=
  match v with
  | PyNone => "NoneType"
  | PyBool _ => "bool"
  | PyInt _ => "int"
  | PyFloat _ => "float"
  | PyStr _ => "str"
  | PyList _ => "list"
  | PyDict _ => "dict"
  | PyObj cls _ => cls
  end.

(** [str(v)] *)
Definition py_str (v : PyVal) : string :=
  match v with
  | PyNone => "None"
  | PyBool true => "True"
  | PyBool false => "False"
  | PyInt z => PyStr.of_Z z
  | PyStr s => s
  | PyList [] => "[]"
  | _ => str_other B v
  end.

(** [bool(v)] *)
Definition py_truthy (v : PyVal) : bool :=
  match v with
  | PyNone => false
  | PyBool b => b
  | PyInt z => negb (Z.eqb z 0)
  | PyFloat f => float_truthy B f
  | PyStr s => PyStr.truthy s
  | PyList l => match l with [] => false | _ => true end
  | PyDict d => match d with [] => false | _ => true end
  | PyObj _ _ => true
  end.

Fixpoint assoc {V} (k : string) (l : list (string * V)) : option V :=
  match l with
  | [] => None
  | (k', v) :: r => if String.eqb k' k then Some v else assoc k r
  end.

(** The data attribute [name] of [v], if it has one.  None of the names
    this program reads is an attribute of a built-in value. *)
Definition attr (v : PyVal) (name : string) : option PyVal :=
  match v with
  | PyObj _ attrs => assoc name attrs
  | _ => None
  end.

(** [getattr(v, name, default)] *)
Definition getattr_default (v : PyVal) (name : string) (default : PyVal) : PyVal :=
  match attr v name with Some x => x | None => default end.

(** [getattr(v, name)] *)
Definition getattr (v : PyVal) (name : string) : Result PyVal :=
  match attr v name with
  | Some x => Ok x
  | None => Raise (Exception "AttributeError"
      ("'" ++ type_name v ++ "' object has no attribute '" ++ name ++ "'"))
  end.

(** [int(v)] *)
Definition py_int (v : PyVal) : Result Z :=
  match v with
  | PyInt z => Ok z
  | PyBool b => Ok (if b then 1%Z else 0%Z)
  | PyFloat f =>
      match int_of_float B f with
      | Some z => Ok z
      | None => Raise (Exception "OverflowError" "cannot convert float to integer")
      end
  | PyStr s =>
      match int_of_str B s with
      | Some z => Ok z
      | None => Raise (Exception "ValueError"
          ("invalid literal for int() with base 10: " ++ str_other B (PyStr s)))
      end
  | _ => Raise (Exception "TypeError"
      ("int() argument must be a string, a bytes-like object or a real number, not '"
       ++ type_name v ++ "'"))
  end.

(** The items a [for] loop over [v] visits. *)
Definition py_iter (v : PyVal) : Result (list PyVal) :=
  match v with
  | PyList l => Ok l
  | PyDict d => Ok (map fst d)
  | PyStr s => Ok (map (fun c => PyStr (String c EmptyString)) (list_ascii_of_string s))
  | _ => Raise (Exception "TypeError" ("'" ++ type_name v ++ "' object is not iterable"))
  end.


(* ===================================================================== *)
(** ** argparse

    The part of [argparse.ArgumentParser] (CPython 3.11) that a parser with
    optional arguments only exercises: every argument is a [store] action
    taking one value, apart from the [-h/--help] action that the constructor
    adds. *)

Inductive ArgType :=
| TNone     (* no type: the string itself *)
| TFloat.   (* type=float *)

Inductive ActionKind :=
| Store     (* nargs=None: one value *)
| Help.     (* nargs=0: print the help and exit *)

Record Argument := {
  option_strings : list string;
  dest : string;
  kind : ActionKind;
  required : bool;
  default : option PyVal;          (* None: argparse.SUPPRESS *)
  type_ : ArgType;
  choices : option (list string)
}.

(** How [parse_args] ends: a namespace, or [SystemExit] after the help
    (status 0) or after the usage and an error message (status 2). *)
Inductive Parsed :=
| Namespace (ns : list (string * PyVal))
| ExitHelp
| ExitError (e : ArgparseError).

(** The class of a command-line string: ['A'], the first ["--"], or ['O']
    with the action it selects (if any), the option string and the explicit
    argument after [=]. *)
Inductive Tok :=
| TokA (s : string)
| TokDashDash
| TokO (hit : option Argument) (option_string : string)
       (explicit : option string) (raw : string).

Definition lookup_option (p : list Argument) (os : string) : option Argument :=
  find (fun a => existsb (String.eqb os) (option_strings a)) p.

(** The keys of [_option_string_actions], in insertion order. *)
Definition all_option_strings (p : list Argument) : list string :=
  flat_map option_strings p.

(** [_negative_number_matcher = re.compile(r'^-\d+$|^-\d*\.\d+$')] *)
Definition negative_number : Re.t :=
  Re.Alt
    (Re.Seq (Re.Chr "-"%char) (Re.Seq (Re.plus Re.Digit) Re.dollar))
    (Re.Seq (Re.Chr "-"%char)
       (Re.Seq (Re.Star Re.Digit)
          (Re.Seq (Re.Chr "."%char) (Re.Seq (Re.plus Re.Digit) Re.dollar)))).

Definition has_negative_number_optionals (p : list Argument) : bool :=
  existsb (Re.fullmatch negative_number) (all_option_strings p).

Definition is_dash (c : ascii) : bool := Ascii.eqb c "-"%char.

(** [_get_option_tuples]: the option strings that [arg] abbreviates, each
    with the explicit argument it would carry. *)
Definition get_option_tuples (p : list Argument) (arg : string)
  : list (string * option string) :=
  match arg with
  | String c0 (String c1 rest) =>
      if is_dash c1 then
        let '(option_prefix, explicit_arg) :=
          if PyStr.contains "="%char arg
          then let (o, e) := PyStr.split1 "="%char arg in (o, Some e)
          else (arg, None) in
        map (fun o => (o, explicit_arg))
            (filter (fun o => PyStr.startswith o option_prefix)
                    (all_option_strings p))
      else
        let short_option_prefix := String c0 (String c1 EmptyString) in
        flat_map (fun o =>
                    if String.eqb o short_option_prefix then [(o, Some rest)]
                    else if PyStr.startswith o arg then [(o, None)]
                    else [])
                 (all_option_strings p)
  | _ => []
  end.

(** [_parse_optional] *)
Definition parse_optional (p : list Argument) (arg : string)
  : Tok + ArgparseError :=
  match arg with
  | EmptyString => inl (TokA arg)
  | String c0 tl =>
      if negb (is_dash c0) then inl (TokA arg)
      else if existsb (String.eqb arg) (all_option_strings p)
      then inl (TokO (lookup_option p arg) arg None arg)
      else match tl with
      | EmptyString => inl (TokA arg)
      | _ =>
        let by_equals :=
          if PyStr.contains "="%char arg then
            let (o, e) := PyStr.split1 "="%char arg in
            if existsb (String.eqb o) (all_option_strings p)
            then Some (TokO (lookup_option p o) o (Some e) arg)
            else None
          else None in
        match by_equals with
        | Some t => inl t
        | None =>
            match get_option_tuples p arg with
            | (_ :: _ :: _) as l => inr (AmbiguousOption arg (map fst l))
            | [(o, e)] => inl (TokO (lookup_option p o) o e arg)
            | [] =>
                if Re.fullmatch negative_number arg
                   && negb (has_negative_number_optionals p)
                then inl (TokA arg)
                else if PyStr.contains " "%char arg then inl (TokA arg)
                else inl (TokO None arg None arg)
            end
        end
      end
  end.

(** The classification pass of [_parse_known_args]: strings before the
    first ["--"] are classified one by one, every string after it is an
    ['A'].  An ambiguous abbreviation ends the parse at once. *)
Fixpoint classify (p : list Argument) (args : list string)
  : list Tok + ArgparseError :=
  match args with
  | [] => inl []
  | a :: r =>
      if String.eqb a "--" then inl (TokDashDash :: map TokA r)
      else match parse_optional p a with
           | inr e => inr e
           | inl t =>
               match classify p r with
               | inr e => inr e
               | inl ts => inl (t :: ts)
               end
           end
  end.

Fixpoint setattr (ns : list (string * PyVal)) (k : string) (v : PyVal)
  : list (string * PyVal) :=
  match ns with
  | [] => [(k, v)]
  | (k', v') :: r =>
      if String.eqb k' k then (k, v) :: r else (k', v') :: setattr r k v
  end.

(** [_get_action_name] of an optional: its option strings joined by [/]. *)
Definition action_name (a : Argument) : string :=
  PyStr.join "/" (option_strings a).

(** [_get_value] then [_check_value]: convert the string with the
    argument's type, then test it against the choices. *)
Definition get_value (a : Argument) (os s : string) : PyVal + ArgparseError :=
  let converted :=
    match type_ a with
    | TNone => Some (PyStr s)
    | TFloat => option_map PyFloat (float_of_str B s)
    end in
  match converted with
  | None => inr (InvalidFloatValue os s)
  | Some v =>
      match choices a with
      | Some allowed =>
          if existsb (String.eqb s) allowed then inl v
          else inr (InvalidChoice os s allowed)
      | None => inl v
      end
  end.

(** The progress of the consuming loop: the namespace, the destinations of
    the actions seen, and the strings no action took. *)
Record ParseState := {
  ps_ns : list (string * PyVal);
  ps_seen : list string;
  ps_extras : list string
}.

(** [take_action] for a [store] action, with the [_get_values] of CPython
    3.11: the first ["--"] among the argument strings is removed before
    anything else.  The only argument string of an action here is its value,
    so a value that is exactly ["--"] (it can only come from [--opt=--])
    leaves no string: the value stored is the empty list, without type
    conversion and without the choices check.  Every other value is
    converted and checked. *)
Definition take_store (a : Argument) (os value : string) (st : ParseState)
  : ParseState + ArgparseError :=
  let store v := {| ps_ns := setattr (ps_ns st) (dest a) v;
                    ps_seen := dest a :: ps_seen st;
                    ps_extras := ps_extras st |} in
  if String.eqb value "--" then inl (store (PyList []))
  else match get_value a os value with
       | inr e => inr e
       | inl v => inl (store v)
       end.

(** The explicit-argument loop of [consume_optional] for an action that
    takes no value: a single-dash option string may be followed by further
    single-character options.  [None]: the chain ends in an action without
    value, and the first action of the chain (the help) runs; [Some e] is
    the error "ignored explicit argument [e]", where [e] is the explicit
    argument left when the chain breaks.  No single-character option takes
    a value here, so the [Store] branch is never reached. *)
Fixpoint flag_chain (p : list Argument) (os explicit : string)
  : option string :=
  match os, explicit with
  | String c0 (String c1 _), String e0 erest =>
      if is_dash c1 then Some explicit
      else
        let os' := String c0 (String e0 EmptyString) in
        match lookup_option p os' with
        | Some a' =>
            match kind a', erest with
            | Help, EmptyString => None
            | Help, _ => flag_chain p os' erest
            | Store, _ => Some explicit
            end
        | None => Some explicit
        end
  | _, _ => Some explicit
  end.

Definition extra (s : string) (st : ParseState) : ParseState :=
  {| ps_ns := ps_ns st; ps_seen := ps_seen st;
     ps_extras := (ps_extras st ++ [s])%list |}.

(** The consuming loop of [_parse_known_args] for a parser without
    positionals: an ['O'] runs its action on the explicit argument or on the
    ['A'] that follows it (for an optional the pattern of one value is [A]:
    ["--"] is not allowed there); everything else is an extra. *)
Fixpoint consume (p : list Argument) (toks : list Tok) (st : ParseState)
  : Parsed + ParseState :=
  match toks with
  | [] => inr st
  | TokA s :: rest => consume p rest (extra s st)
  | TokDashDash :: rest => consume p rest (extra "--" st)
  | TokO None _ _ raw :: rest => consume p rest (extra raw st)
  | TokO (Some a) os explicit _ :: rest =>
      match kind a, explicit with
      | Help, None => inl ExitHelp
      | Help, Some e =>
          match flag_chain p os e with
          | None => inl ExitHelp
          | Some e' => inl (ExitError (IgnoredExplicitArgument os e'))
          end
      | Store, Some e =>
          match take_store a os e st with
          | inr err => inl (ExitError err)
          | inl st' => consume p rest st'
          end
      | Store, None =>
          match rest with
          | TokA v :: rest' =>
              match take_store a os v st with
              | inr err => inl (ExitError err)
              | inl st' => consume p rest' st'
              end
          | _ => inl (ExitError (ExpectedOneArgument os))
          end
      end
  end.

(** The namespace before parsing: every destination with a default that is
    not [SUPPRESS] holds it. *)
Fixpoint initial_namespace (p : list Argument) : list (string * PyVal) :=
  match p with
  | [] => []
  | a :: r =>
      match default a with
      | Some d => (dest a, d) :: initial_namespace r
      | None => initial_namespace r
      end
  end.

Definition was_seen (st : ParseState) (a : Argument) : bool :=
  existsb (String.eqb (dest a)) (ps_seen st).

(** [parser.parse_args(argv)].  After the loop argparse converts, with the
    argument's type, the default of an unseen argument when that default is a
    string; an argument without a type keeps it as it is, and no argument
    of a typed kind has a string default here, so the step is the identity
    and is left out. *)
Definition parse_args (p : list Argument) (argv : list string) : Parsed :=
  match classify p argv with
  | inr e => ExitError e
  | inl toks =>
      match consume p toks {| ps_ns := initial_namespace p;
                              ps_seen := []; ps_extras := [] |} with
      | inl exit => exit
      | inr st =>
          match filter (fun a => required a && negb (was_seen st a)) p with
          | (_ :: _) as missing =>
              ExitError (RequiredArguments (map action_name missing))
          | [] =>
              match ps_extras st with
              | (_ :: _) as extras => ExitError (UnrecognizedArguments extras)
              | [] => Namespace (ps_ns st)
              end
          end
      end
  end.

(** [add_argument(name, ...)]: the destination is the option string
    without its leading dashes, with [-] replaced by [_]. *)
Fixpoint dashes_to_underscores (s : string) : string :=
  match s with
  | EmptyString => EmptyString
  | String c r =>
      String (if is_dash c then "_"%char else c) (dashes_to_underscores r)
  end.

Fixpoint strip_dashes (s : string) : string :=
  match s with
  | String c r => if is_dash c then strip_dashes r else s
  | EmptyString => EmptyString
  end.

Definition add_argument (name : string) (required : bool)
  (default : PyVal) (type_ : ArgType) (choices : option (list string))
  : Argument :=
  {| option_strings := [name];
     dest := dashes_to_underscores (strip_dashes name);
     kind := Store; required := required; default := Some default;
     type_ := type_; choices := choices |}.

(** The action [ArgumentParser.__init__] adds when [add_help] is true. *)
Definition help_action : Argument :=
  {| option_strings := ["-h"; "--help"]; dest := "help"; kind := Help;
     required := false; default := None; type_ := TNone; choices := None |}.

(** The parser that [_parse_args] builds. *)
Definition parser : list Argument :=
  [ help_action;
    add_argument "--person" true PyNone TNone None;
    add_argument "--birth" true PyNone TNone None;
    add_argument "--tz" true PyNone TNone None;
    add_argument "--lat" true PyNone TFloat None;
    add_argument "--lon" true PyNone TFloat None;
    add_argument "--house-system" false (PyStr "Placidus") TNone None;
    add_argument "--ephe-path" false PyNone TNone None;
    add_argument "--format" false (PyStr "text") TNone
                 (Some ["text"; "json"; "both"]) ].

(* ===================================================================== *)
(** ** The data model of run.py *)

(** [@dataclass(frozen=...)]: the name of the class, whether it is frozen,
    and its fields in declaration order. *)
Record Dataclass := {
  dc_name : string;
  dc_frozen : bool;
  dc_fields : list string
}.

Definition PluginInput_class : Dataclass :=
  {| dc_name := "PluginInput"; dc_frozen := true;
     dc_fields := ["person"; "birth"; "tz"; "lat"; "lon"; "house_system";
                   "ephe_path"; "output_format"] |}.

Definition AspectOut_class : Dataclass :=
  {| dc_name := "AspectOut"; dc_frozen := true;
     dc_fields := ["body1"; "symbol"; "body2"; "orb"] |}.

Definition BodyOut_class : Dataclass :=
  {| dc_name := "BodyOut"; dc_frozen := true;
     dc_fields := ["name"; "signed_dms"; "house"; "declination_dms";
                   "absolute_dms"] |}.

Definition HouseOut_class : Dataclass :=
  {| dc_name := "HouseOut"; dc_frozen := true;
     dc_fields := ["id"; "dms"; "sign"; "declination_dms"; "absolute_dms"] |}.

Definition ChartSummaryOut_class : Dataclass :=
  {| dc_name := "ChartSummaryOut"; dc_frozen := true;
     dc_fields := ["person"; "dt_utc_iso"; "location"; "sun"; "moon";
                   "aspects"; "element_distribution";
                   "modality_distribution"; "houses"] |}.

Definition dataclasses : list Dataclass :=
  [PluginInput_class; AspectOut_class; BodyOut_class; HouseOut_class;
   ChartSummaryOut_class].

(** [obj.name = v] on an instance of a dataclass, the instance seen as its
    fields: a frozen class raises [FrozenInstanceError]. *)
Definition dataclass_setattr (cls : Dataclass) (obj : list (string * PyVal))
  (name : string) (v : PyVal) : Result (list (string * PyVal)) :=
  if dc_frozen cls
  then Raise (Exception "FrozenInstanceError"
                ("cannot assign to field '" ++ name ++ "'"))
  else Ok (setattr obj name v).

(** [del obj.name] *)
Definition dataclass_delattr (cls : Dataclass) (obj : list (string * PyVal))
  (name : string) : Result (list (string * PyVal)) :=
  if dc_frozen cls
  then Raise (Exception "FrozenInstanceError"
                ("cannot delete field '" ++ name ++ "'"))
  else Ok (filter (fun kv => negb (String.eqb (fst kv) name)) obj).

Record PluginInput := {
  in_person : string;
  in_birth : string;
  in_tz : string;
  in_lat : F;
  in_lon : F;
  in_house_system : string;
  in_ephe_path : option string;
  in_output_format : string
}.

Record AspectOut := {
  asp_body1 : string;
  asp_symbol : string;
  asp_body2 : string;
  asp_orb : string
}.

Record BodyOut := {
  body_name : string;
  body_signed_dms : string;
  body_house : option Z;
  body_declination_dms : option string;
  body_absolute_dms : option string
}.

Record HouseOut := {
  house_id : Z;
  house_dms : string;
  house_sign : string;
  house_declination_dms : option string;
  house_absolute_dms : option string
}.

Record ChartSummaryOut := {
  sum_person : string;
  sum_dt_utc_iso : string;
  sum_location : list (string * F);        (* Dict[str, float] *)
  sum_sun : option BodyOut;
  sum_moon : option BodyOut;
  sum_aspects : list AspectOut;
  sum_element_distribution : PyVal;        (* Any *)
  sum_modality_distribution : PyVal;       (* Any *)
  sum_houses : list HouseOut
}.

(* ===================================================================== *)
(** ** The collaborators *)

(** [from nataly import NatalChart, create_orb_config, to_utc], and the
    two methods the program calls on what they return.  Each may raise. *)
Record Nataly := {
  to_utc : string -> string -> Result PyVal;
  isoformat : PyVal -> Result string;
  create_orb_config : string -> Result PyVal;
  NatalChart : string -> PyVal -> F -> F -> PyVal -> option string
               -> Result PyVal;
  get_body_by_name : PyVal -> string -> Result PyVal
}.

(** What [_resolve_ephe_path] reads from the process. *)
Record OsEnv := {
  getenv_NATALY_EPHE_PATH : option string;   (* os.getenv("NATALY_EPHE_PATH") *)
  default_dir : string;      (* str(Path(__file__).resolve().parent / "ephe") *)
  default_dir_is_dir : bool  (* default_dir.exists() and default_dir.is_dir() *)
}.

Variable L : Nataly.
Variable E : OsEnv.

(* ===================================================================== *)
(** ** The functions of run.py *)

(** [float(v)] *)
Definition py_float (v : PyVal) : Result F :=
  let overflow := Raise (Exception "OverflowError"
                           "int too large to convert to float") in
  match v with
  | PyFloat f => Ok f
  | PyInt z => match float_of_int B z with Some f => Ok f | None => overflow end
  | PyBool b =>
      match float_of_int B (if b then 1%Z else 0%Z) with
      | Some f => Ok f
      | None => overflow
      end
  | PyStr s =>
      match float_of_str B s with
      | Some f => Ok f
      | None => Raise (Exception "ValueError"
          ("could not convert string to float: " ++ str_other B (PyStr s)))
      end
  | _ => Raise (Exception "TypeError"
      ("float() argument must be a string or a real number, not '"
       ++ type_name v ++ "'"))
  end.

Definition _parse_args (argv : list string) : M PluginInput :=
  match parse_args parser argv with
  | ExitHelp => emit (Argparse HelpText) ;;; raise (SystemExit 0)
  | ExitError e => emit (Argparse (UsageAndError e)) ;;; raise (SystemExit 2)
  | Namespace fields =>
      let ns := PyObj "Namespace" fields in
      ns_tz <- lift (getattr ns "tz") ;;
      let tz := PyStr.strip (py_str ns_tz) in
      if negb (tz_re_match tz) then
        raise (Exception "ValueError"
                 ("Invalid --tz value: " ++ tz
                  ++ ". Expected format like +02:00"))
      else
        ns_person <- lift (getattr ns "person") ;;
        ns_birth <- lift (getattr ns "birth") ;;
        ns_lat <- lift (getattr ns "lat") ;;
        lat <- lift (py_float ns_lat) ;;
        ns_lon <- lift (getattr ns "lon") ;;
        lon <- lift (py_float ns_lon) ;;
        ns_house_system <- lift (getattr ns "house_system") ;;
        ns_ephe_path <- lift (getattr ns "ephe_path") ;;
        ns_format <- lift (getattr ns "format") ;;
        emit (Construct "PluginInput") ;;;
        ret {| in_person := PyStr.strip (py_str ns_person);
               in_birth := PyStr.strip (py_str ns_birth);
               in_tz := tz;
               in_lat := lat;
               in_lon := lon;
               in_house_system := PyStr.strip (py_str ns_house_system);
               in_ephe_path :=
                 if py_truthy ns_ephe_path
                 then Some (PyStr.strip (py_str ns_ephe_path)) else None;
               in_output_format := py_str ns_format |}
  end.

Definition _resolve_ephe_path (explicit : option string) : option string :=
  let from_default :=
    if default_dir_is_dir E then Some (default_dir E) else None in
  let from_env :=
    match getenv_NATALY_EPHE_PATH E with
    | Some env_val =>
        if PyStr.truthy env_val && PyStr.truthy (PyStr.strip env_val)
        then Some (PyStr.strip env_val) else from_default
    | None => from_default
    end in
  match explicit with
  | Some e => if PyStr.truthy e then Some e else from_env
  | None => from_env
  end.

(** [str(x) if x is not None else None] *)
Definition str_unless_none (x : PyVal) : option string :=
  match x with PyNone => None | _ => Some (py_str x) end.

Definition _safe_get_body (chart : PyVal) (name : string) : M (option BodyOut) :=
  got <- try_except
           (body <- call (Call_get_body_by_name name)
                         (get_body_by_name L chart name) ;;
            ret (Some body))
           (fun _ _ => ret None) ;;
  match got with
  | None => ret None
  | Some body =>
      house_val <- try_except
                     (h <- lift (getattr body "house") ;;
                      n <- lift (py_int h) ;;
                      ret (Some n))
                     (fun _ _ => ret None) ;;
      let signed_dms :=
        let a := py_str (getattr_default body "signed_dms" (PyStr EmptyString)) in
        if PyStr.truthy a then a
        else py_str (getattr_default body "dms" (PyStr EmptyString)) in
      let decl_dms := getattr_default body "declination_dms" PyNone in
      let abs_dms := getattr_default body "absolute_dms" PyNone in
      emit (Construct "BodyOut") ;;;
      ret (Some {| body_name := py_str (getattr_default body "name" (PyStr name));
                   body_signed_dms := signed_dms;
                   body_house := house_val;
                   body_declination_dms := str_unless_none decl_dms;
                   body_absolute_dms := str_unless_none abs_dms |})
  end.

Definition _build_chart (inp : PluginInput) : M (PyVal * string) :=
  dt_utc <- call (Call_to_utc (in_birth inp) (in_tz inp))
                 (to_utc L (in_birth inp) (in_tz inp)) ;;
  dt_utc_iso <- call (Call_isoformat dt_utc) (isoformat L dt_utc) ;;
  let ephe_path := _resolve_ephe_path (in_ephe_path inp) in
  orb_cfg <- call (Call_create_orb_config (in_house_system inp))
                  (create_orb_config L (in_house_system inp)) ;;
  chart <- call (Call_NatalChart (in_person inp) dt_utc (in_lat inp)
                                 (in_lon inp) orb_cfg ephe_path)
                (NatalChart L (in_person inp) dt_utc (in_lat inp)
                            (in_lon inp) orb_cfg ephe_path) ;;
  ret (chart, dt_utc_iso).

Definition aspect_out (asp : PyVal) : M AspectOut :=
  let b1 := getattr_default (getattr_default asp "body1" PyNone) "name" (PyStr EmptyString) in
  let b2 := getattr_default (getattr_default asp "body2" PyNone) "name" (PyStr EmptyString) in
  let sym := getattr_default asp "symbol" (PyStr EmptyString) in
  let orb := getattr_default asp "orb_str" (PyStr EmptyString) in
  emit (Construct "AspectOut") ;;;
  ret {| asp_body1 := py_str b1; asp_symbol := py_str sym;
         asp_body2 := py_str b2; asp_orb := py_str orb |}.

Definition house_out (h : PyVal) : M HouseOut :=
  h_id <- lift (getattr h "id") ;;
  hid <- lift (py_int h_id) ;;
  let dms := py_str (getattr_default h "dms" (PyStr EmptyString)) in
  let sign :=
    py_str (getattr_default (getattr_default h "sign" PyNone) "name" (PyStr EmptyString)) in
  let decl := getattr_default h "declination_dms" PyNone in
  let abs_dms := getattr_default h "absolute_dms" PyNone in
  emit (Construct "HouseOut") ;;;
  ret {| house_id := hid; house_dms := dms; house_sign := sign;
         house_declination_dms := str_unless_none decl;
         house_absolute_dms := str_unless_none abs_dms |}.

Definition _to_summary (chart : PyVal) (inp : PluginInput) (dt_utc_iso : string)
  : M ChartSummaryOut :=
  sun <- _safe_get_body chart "Sun" ;;
  moon <- _safe_get_body chart "Moon" ;;
  aspects <- lift (py_iter (getattr_default chart "aspects" (PyList []))) ;;
  aspects_out <- mapM aspect_out aspects ;;
  houses <- lift (py_iter (getattr_default chart "houses" (PyList []))) ;;
  houses_out <- mapM house_out houses ;;
  emit (Construct "ChartSummaryOut") ;;;
  ret {| sum_person := in_person inp;
         sum_dt_utc_iso := dt_utc_iso;
         sum_location := [("lat", in_lat inp); ("lon", in_lon inp)];
         sum_sun := sun;
         sum_moon := moon;
         sum_aspects := aspects_out;
         sum_element_distribution :=
           getattr_default chart "element_distribution" PyNone;
         sum_modality_distribution :=
           getattr_default chart "modality_distribution" PyNone;
         sum_houses := houses_out |}.

(** [d[k]] / [k in d] for a string key. *)
Fixpoint dict_get (d : list (PyVal * PyVal)) (k : string) : option PyVal :=
  match d with
  | [] => None
  | (PyStr k', v) :: r => if String.eqb k' k then Some v else dict_get r k
  | _ :: r => dict_get r k
  end.

(** [isinstance(v, (int, float))] *)
Definition is_number (v : PyVal) : bool :=
  match v with PyInt _ | PyBool _ | PyFloat _ => true | _ => false end.

Definition _get_sort_score (val : PyVal) : Result F :=
  if is_number val then py_float val
  else match val with
  | PyDict d =>
      let fix first_numeric (keys : list string) : Result F :=
        match keys with
        | [] => Ok (float_zero B)
        | key :: r =>
            match dict_get d key with
            | Some x => if is_number x then py_float x else first_numeric r
            | None => first_numeric r
            end
        end in
      first_numeric ["count"; "value"; "score"; "weight"]
  | _ => Ok (float_zero B)
  end.

Definition _fmt_val (val : PyVal) : string :=
  match val with
  | PyDict d =>
      match dict_get d "count" with
      | Some c => py_str c
      | None => py_str val
      end
  | _ => py_str val
  end.

(** One step of [sorted(..., reverse=True)]: [x] goes after every element
    whose key is not below its own, so equal keys keep their order. *)
Fixpoint insert_desc {A} (x : F * A) (l : list (F * A)) : list (F * A) :=
  match l with
  | [] => [x]
  | y :: r =>
      if float_ltb B (fst y) (fst x) then x :: l else y :: insert_desc x r
  end.

Definition sorted_desc {A} (l : list (F * A)) : list (F * A) :=
  fold_left (fun acc x => insert_desc x acc) l [].

(** The keys of the sort, computed for every item before any comparison. *)
Fixpoint keyed (items : list (PyVal * PyVal))
  : Result (list (F * (PyVal * PyVal))) :=
  match items with
  | [] => Ok []
  | kv :: r =>
      match _get_sort_score (snd kv) with
      | Raise e => Raise e
      | Ok s =>
          match keyed r with
          | Raise e => Raise e
          | Ok l => Ok ((s, kv) :: l)
          end
      end
  end.

Definition _print_dist (label : string) (dist : PyVal) : M unit :=
  match dist with
  | PyDict d =>
      ks <- lift (keyed d) ;;
      let items := map snd (sorted_desc ks) in
      let formatted :=
        PyStr.join ", "
          (map (fun kv => py_str (fst kv) ++ ": " ++ _fmt_val (snd kv)) items) in
      emit (Print ("  " ++ PyStr.ljust 10 label ++ " " ++ formatted))
  | _ =>
      match attr dist "items" with
      | Some f =>
          (* [dist.items()] on a data attribute *)
          raise (Exception "TypeError"
                   ("'" ++ type_name f ++ "' object is not callable"))
      | None => emit (Print ("  " ++ PyStr.ljust 10 label ++ " " ++ py_str dist))
      end
  end.

(** [d[k]] on a [Dict[str, float]]. *)
Definition location_get (d : list (string * F)) (k : string) : Result F :=
  match assoc k d with
  | Some x => Ok x
  | None => Raise (Exception "KeyError" ("'" ++ k ++ "'"))
  end.

(** The lines of a body placement ([label] is "Sun:  " or "Moon: "). *)
Definition print_body (label : string) (b : option BodyOut) : M unit :=
  match b with
  | None => ret tt
  | Some body =>
      let house_str :=
        match body_house body with
        | Some h => "House " ++ PyStr.of_Z h
        | None => "House ?"
        end in
      emit (Print (label ++ body_signed_dms body ++ " (" ++ house_str ++ ")")) ;;;
      match body_declination_dms body with
      | Some d =>
          if PyStr.truthy d then emit (Print ("      decl: " ++ d)) else ret tt
      | None => ret tt
      end
  end.

Definition aspect_line (a : AspectOut) : string :=
  "  " ++ asp_body1 a ++ " " ++ asp_symbol a ++ " " ++ asp_body2 a
  ++ " (orb: " ++ asp_orb a ++ ")".

Definition house_line (h : HouseOut) : string :=
  let line := "  House " ++ PyStr.of_Z (house_id h) ++ ": " ++ house_dms h
              ++ " " ++ house_sign h in
  match house_declination_dms h with
  | Some d => if PyStr.truthy d then line ++ " (decl: " ++ d ++ ")" else line
  | None => line
  end.

Definition _print_text (summary : ChartSummaryOut) : M unit :=
  emit (Print ("Person: " ++ sum_person summary)) ;;;
  emit (Print ("UTC:    " ++ sum_dt_utc_iso summary)) ;;;
  lat <- lift (location_get (sum_location summary) "lat") ;;
  lon <- lift (location_get (sum_location summary) "lon") ;;
  emit (Print ("Loc:    lat=" ++ py_str (PyFloat lat)
               ++ ", lon=" ++ py_str (PyFloat lon))) ;;;
  emit (Print EmptyString) ;;;
  print_body "Sun:  " (sum_sun summary) ;;;
  print_body "Moon: " (sum_moon summary) ;;;
  emit (Print EmptyString) ;;;
  emit (Print "Distributions") ;;;
  _print_dist "element" (sum_element_distribution summary) ;;;
  _print_dist "modality" (sum_modality_distribution summary) ;;;
  emit (Print EmptyString) ;;;
  emit (Print "Aspects") ;;;
  forM_ (firstn 50 (sum_aspects summary))
        (fun a => emit (Print (aspect_line a))) ;;;
  emit (Print EmptyString) ;;;
  emit (Print "Houses") ;;;
  forM_ (sum_houses summary) (fun h => emit (Print (house_line h))).

(** [dataclasses.asdict]: a dict from the names of the class's fields, in
    declaration order, to the converted field values. *)
Definition asdict (cls : Dataclass) (values : list PyVal) : PyVal :=
  PyDict (combine (map PyStr (dc_fields cls)) values).

Definition opt_str (o : option string) : PyVal :=
  match o with Some s => PyStr s | None => PyNone end.

Definition opt_int (o : option Z) : PyVal :=
  match o with Some z => PyInt z | None => PyNone end.

Definition AspectOut_asdict (a : AspectOut) : PyVal :=
  asdict AspectOut_class
    [PyStr (asp_body1 a); PyStr (asp_symbol a); PyStr (asp_body2 a);
     PyStr (asp_orb a)].

Definition BodyOut_asdict (b : BodyOut) : PyVal :=
  asdict BodyOut_class
    [PyStr (body_name b); PyStr (body_signed_dms b); opt_int (body_house b);
     opt_str (body_declination_dms b); opt_str (body_absolute_dms b)].

Definition HouseOut_asdict (h : HouseOut) : PyVal :=
  asdict HouseOut_class
    [PyInt (house_id h); PyStr (house_dms h); PyStr (house_sign h);
     opt_str (house_declination_dms h); opt_str (house_absolute_dms h)].

(** [asdict] on a value that holds no dataclass instance: a list and a
    dict are rebuilt item by item ([type(obj)(...)], which for the plain
    [list] and [dict] of this universe cannot fail), everything else is
    deep-copied. *)
Fixpoint asdict_any (v : PyVal) : PyVal :=
  match v with
  | PyList l => PyList (map asdict_any l)
  | PyDict d =>
      PyDict (map (fun kv : PyVal * PyVal =>
                     let (k, x) := kv in (asdict_any k, asdict_any x)) d)
  | _ => v
  end.

Definition _to_jsonable (summary : ChartSummaryOut) : PyVal :=
  asdict ChartSummaryOut_class
    [PyStr (sum_person summary);
     PyStr (sum_dt_utc_iso summary);
     PyDict (map (fun kv => (PyStr (fst kv), PyFloat (snd kv)))
                 (sum_location summary));
     match sum_sun summary with Some b => BodyOut_asdict b | None => PyNone end;
     match sum_moon summary with Some b => BodyOut_asdict b | None => PyNone end;
     PyList (map AspectOut_asdict (sum_aspects summary));
     asdict_any (sum_element_distribution summary);
     asdict_any (sum_modality_distribution summary);
     PyList (map HouseOut_asdict (sum_houses summary))].

(** Why [json.dumps] raises [TypeError] on a value, if it does: a dict key
    that is not a str, int, float, bool or None, or an object. *)
Fixpoint json_type_error (v : PyVal) : option string :=
  match v with
  | PyList l =>
      (fix items (l : list PyVal) : option string :=
         match l with
         | [] => None
         | x :: r =>
             match json_type_error x with
             | Some e => Some e
             | None => items r
             end
         end) l
  | PyDict d =>
      (fix items (d : list (PyVal * PyVal)) : option string :=
         match d with
         | [] => None
         | (k, x) :: r =>
             match k with
             | PyList _ | PyDict _ | PyObj _ _ =>
                 Some ("keys must be str, int, float, bool or None, not "
                       ++ type_name k)
             | _ =>
                 match json_type_error x with
                 | Some e => Some e
                 | None => items r
                 end
             end
         end) d
  | PyObj cls _ => Some ("Object of type " ++ cls ++ " is not JSON serializable")
  | _ => None
  end.

(** [print(json.dumps(payload, ensure_ascii=False, indent=2))] *)
Definition print_json (payload : PyVal) : M unit :=
  match json_type_error payload with
  | Some msg => raise (Exception "TypeError" msg)
  | None => emit (PrintJson payload)
  end.

Definition one_of (s : string) (l : list string) : bool :=
  existsb (String.eqb s) l.

(** The body of the [try] in [main]. *)
Definition pipeline (argv : list string) : M Z :=
  inp <- _parse_args argv ;;
  built <- _build_chart inp ;;
  let (chart, dt_utc_iso) := built in
  summary <- _to_summary chart inp dt_utc_iso ;;
  (if one_of (in_output_format inp) ["text"; "both"]
   then _print_text summary else ret tt) ;;;
  (if one_of (in_output_format inp) ["json"; "both"]
   then print_json (_to_jsonable summary) else ret tt) ;;;
  ret 0%Z.

Definition main (argv : list string) : M Z :=
  try_except (pipeline argv)
    (fun _ exc =>
       emit (PrintErr ("[nataly plugin] Error: " ++ exc)) ;;; ret 1%Z).

End Plugin.

Arguments Ok {A} a.
Arguments Raise {A} e.
Arguments ret {F A} a.
Arguments raise {F A} e.
Arguments lift {F A} r.
Arguments PyNone {F}.
Arguments PyBool {F} b.
Arguments PyInt {F} z.
Arguments PyStr {F} s.
Arguments Print {F} line.
Arguments PrintErr {F} line.
Arguments Argparse {F} text.
Arguments Construct {F} cls.
Arguments Call_to_utc {F} birth tz.
Arguments Call_create_orb_config {F} house_system.
Arguments Call_get_body_by_name {F} name.
Arguments ExitHelp {F}.
Arguments ExitError {F} e.
Arguments TokDashDash {F}.
Arguments TokA {F} s.
Arguments help_action {F}.
Arguments opt_str {F} o.
Arguments opt_int {F} o.
Arguments AspectOut_asdict {F} a.
Arguments BodyOut_asdict {F} b.
Arguments HouseOut_asdict {F} h.
Arguments parser {F}.

(* ===================================================================== *)
(** ** A small instance of the collaborators

    Whole-number floats, and a library that answers with fixed charts.  It
    is used to run the program on concrete command lines. *)

Module Demo.

Definition digit_val (c : ascii) : option Z :=
  if PyStr.isdigit c then Some (Z.of_nat (nat_of_ascii c) - 48)%Z else None.

Fixpoint digits (acc : Z) (s : string) : option Z :=
  match s with
  | EmptyString => Some acc
  | String c r =>
      match digit_val c with
      | Some d => digits (10 * acc + d)%Z r
      | None => None
      end
  end.

(** A signed decimal numeral without fraction or exponent. *)
Definition whole (s : string) : option Z :=
  match s with
  | String "-" (String c r) => option_map Z.opp (digits 0 (String c r))
  | String "+" (String c r) => digits 0 (String c r)
  | String _ _ => digits 0 s
  | EmptyString => None
  end.

Definition show (v : PyVal Z) : string :=
  match v with
  | PyFloat f => PyStr.of_Z f ++ ".0"
  | PyStr s => "'" ++ s ++ "'"
  | PyList _ => "[...]"
  | PyDict _ => "{...}"
  | PyObj cls _ => "<" ++ cls ++ " object>"
  | _ => EmptyString
  end.

Definition builtins : PyBuiltins Z :=
  {| float_of_str := whole;
     float_of_int := fun z => Some z;
     int_of_float := fun f => Some f;
     int_of_str := whole;
     float_ltb := Z.ltb;
float_truthy := fun f => negb (Z.eqb f 0);
     float_zero := 0%Z;
     str_other := show |}.

Definition body (name dms : string) (house : Z) : PyVal Z :=
  PyObj "Body" [("name", PyStr name); ("signed_dms", PyStr dms);
                ("house", PyInt house);
                ("declination_dms", PyStr "+10 00'00")].

Definition aspect (b1 sym b2 orb : string) : PyVal Z :=
  PyObj "Aspect" [("body1", PyObj "Body" [("name", PyStr b1)]);
                  ("body2", PyObj "Body" [("name", PyStr b2)]);
                  ("symbol", PyStr sym); ("orb_str", PyStr orb)].

Definition house (n : Z) (sign : string) : PyVal Z :=
  PyObj "House" [("id", PyInt n); ("dms", PyStr "00 00'00");
                 ("sign", PyObj "Sign" [("name", PyStr sign)])].

(** A chart with [n] aspects. *)
Definition chart (n : nat) : PyVal Z :=
  PyObj "NatalChart"
    [("aspects", PyList (repeat (aspect "Sun" "*" "Moon" "1 00'") n));
     ("houses", PyList [house 1 "Aries"; house 2 "Taurus"]);
     ("element_distribution",
        PyDict [(PyStr "Fire", PyInt 3); (PyStr "Water", PyInt 5)]);
     ("modality_distribution",
        PyDict [(PyStr "Cardinal", PyDict [(PyStr "count", PyInt 4)])])].

(** A library whose chart has [n] aspects; [bodies] tells whether
    [get_body_by_name] finds the body or raises. *)
Definition nataly (n : nat) (bodies : bool) : Nataly Z :=
  {| to_utc := fun birth tz =>
       Ok (PyObj "datetime" [("iso", PyStr (birth ++ " " ++ tz))]);
     isoformat := fun dt =>
       Ok (py_str builtins (getattr_default dt "iso" (PyStr EmptyString)));
     create_orb_config := fun hs =>
       Ok (PyObj "OrbConfig" [("house_system", PyStr hs)]);
     NatalChart := fun _ _ _ _ _ _ => Ok (chart n);
     get_body_by_name := fun _ name =>
       if bodies then Ok (body name "15 Leo 00'00" 5)
       else Raise (Exception "KeyError" ("'" ++ name ++ "'")) |}.

Definition os (env : option string) (is_dir : bool) : OsEnv :=
  {| getenv_NATALY_EPHE_PATH := env;
     default_dir := "/opt/plugin/ephe";
     default_dir_is_dir := is_dir |}.

(** [--person Ada --birth "1990-01-01 12:00" --tz <tz> --lat 41 --lon 29] *)
Definition argv (tz : string) : list string :=
  ["--person"; "Ada"; "--birth"; "1990-01-01 12:00"; "--tz"; tz;
   "--lat"; "41"; "--lon"; "29"].

Definition run (n : nat) (bodies : bool) (args : list string) : M Z Z :=
  main builtins (nataly n bodies) (os None false) args.

End Demo.

(* ===================================================================== *)
(** ** Predicates used in the statements *)

Section Predicates.

Variable F : Type.

(** The value a [store] action leaves for argument [a]. *)
Definition typed (a : Argument F) (v : PyVal F) : Prop :=
  match type_ a with
  | TFloat => exists f, v = PyFloat f
  | TNone =>
      exists s, v = PyStr s
                /\ match choices a with
                   | Some allowed => In s allowed
                   | None => True
                   end
  end.

(** What a [store] action leaves for argument [a]: a value of its type,
    or the empty list for the value ["--"]. *)
Definition stored (a : Argument F) (v : PyVal F) : Prop :=
  typed a v \/ v = PyList [].

(** The namespace entry of [a]: a stored value once the action ran, its
    default before. *)
Definition entry_ok (seen : list string) (a : Argument F) (v : PyVal F) : Prop :=
  if one_of (dest a) seen then stored a v else Some v = default a.

(** The [store] arguments of the parser, in declaration order. *)
Definition stores : list (Argument F) := tl parser.

Definition ns_ok (st : ParseState F) : Prop :=
  Forall2 (fun a kv => fst kv = dest a /\ entry_ok (ps_seen st) a (snd kv))
          stores (ps_ns st).

Definition tok_ok (p : list (Argument F)) (t : Tok F) : Prop :=
  match t with
  | TokO (Some a) _ _ _ => In a p
  | _ => True
  end.

(** Every action the classified strings select satisfies [allowed]. *)
Definition tok_allowed (allowed : Argument F -> Prop) (t : Tok F) : Prop :=
  match t with
  | TokO (Some a) _ _ _ => allowed a
  | _ => True
  end.

(** A string from the command line, or the empty list. *)
Definition text_entry (v : PyVal F) : Prop :=
  (exists s, v = PyStr s) \/ v = PyList [].

(** A float converted from the command line, or the empty list. *)
Definition float_entry (v : PyVal F) : Prop :=
  (exists f, v = PyFloat f) \/ v = PyList [].

(** The value of [--format]: one of the choices, or the empty list. *)
Definition format_entry (v : PyVal F) : Prop :=
  (exists s, v = PyStr s /\ In s ["text"; "json"; "both"]) \/ v = PyList [].

(** The namespace of a successful parse. *)
Definition namespace_shape (fields : list (string * PyVal F)) : Prop :=
  exists person birth tz lat lon hs ep fmt,
    fields = [("person", person); ("birth", birth); ("tz", tz);
              ("lat", lat); ("lon", lon); ("house_system", hs);
              ("ephe_path", ep); ("format", fmt)]
    /\ text_entry person /\ text_entry birth /\ text_entry tz
    /\ float_entry lat /\ float_entry lon /\ text_entry hs
    /\ (ep = PyNone \/ text_entry ep)
    /\ format_entry fmt.

End Predicates.

Arguments stores {F}.

Section EventPredicates.

Variable F : Type.

Definition is_construct (cls : string) (e : Event F) : bool :=
  match e with
  | Construct c => String.eqb c cls
  | _ => false
  end.

(** How many times the constructor of dataclass [cls] ran. *)
Definition constructions (cls : string) (t : list (Event F)) : nat :=
  length (filter (is_construct cls) t).

Definition is_print (e : Event F) : bool :=
  match e with Print _ => true | _ => false end.

Definition is_print_json (e : Event F) : bool :=
  match e with PrintJson _ => true | _ => false end.

(** The events of [_parse_args]. *)
Definition is_parse_event (e : Event F) : bool :=
  match e with
  | Argparse _ => true
  | Construct c => String.eqb c "PluginInput"
  | _ => false
  end.

(** The events of [_to_summary] before it builds its record. *)
Definition is_nested_event (e : Event F) : bool :=
  match e with
  | Call (Call_get_body_by_name _) => true
  | Construct c => one_of c ["BodyOut"; "AspectOut"; "HouseOut"]
  | _ => false
  end.

(** The calls of [_build_chart] for the input [inp] in environment [E]. *)
Definition is_build_event (E : OsEnv) (inp : PluginInput F) (e : Event F) : Prop :=
  match e with
  | Call (Call_to_utc birth tz) => birth = in_birth inp /\ tz = in_tz inp
  | Call (Call_isoformat _) => True
  | Call (Call_create_orb_config hs) => hs = in_house_system inp
  | Call (Call_NatalChart person _ lat lon _ ephe) =>
      person = in_person inp /\ lat = in_lat inp /\ lon = in_lon inp
      /\ ephe = _resolve_ephe_path E (in_ephe_path inp)
  | _ => False
  end.

End EventPredicates.

Section JsonShape.

Variable F : Type.

(** A JSON object whose keys are exactly [keys], in this order. *)
Definition has_keys (keys : list string) (v : PyVal F) : Prop :=
  exists d, v = PyDict d /\ map fst d = map PyStr keys.

(** The documented output summary record as a JSON document: person, UTC
    timestamp string, location (lat and lon), optional sun and moon
    placements, list of aspects, element and modality distributions, list
    of house placements. *)
Definition summary_shape (payload : PyVal F) : Prop :=
  exists person iso lat lon sun moon aspects ed md houses,
    payload
    = PyDict [(PyStr "person", PyStr person);
              (PyStr "dt_utc_iso", PyStr iso);
              (PyStr "location",
                 PyDict [(PyStr "lat", PyFloat lat); (PyStr "lon", PyFloat lon)]);
              (PyStr "sun", sun);
              (PyStr "moon", moon);
              (PyStr "aspects", PyList aspects);
              (PyStr "element_distribution", ed);
              (PyStr "modality_distribution", md);
              (PyStr "houses", PyList houses)]
    /\ (sun = PyNone \/ has_keys (dc_fields BodyOut_class) sun)
    /\ (moon = PyNone \/ has_keys (dc_fields BodyOut_class) moon)
    /\ Forall (has_keys (dc_fields AspectOut_class)) aspects
    /\ Forall (has_keys (dc_fields HouseOut_class)) houses.

End JsonShape.

Section TextOfJson.

Variable F : Type.
Variable B : PyBuiltins F.







End TextOfJson.

Section InvocationPredicates.

Variable F : Type.




(** The classified string [t] selects the action with destination [d]. *)
Definition selects (d : string) (t : Tok F) : bool :=
  match t with
  | TokO (Some a) _ _ _ => String.eqb (dest a) d
  | _ => false
  end.

(** No string of [argv] is read by argparse as the option with destination
    [d]: not in full, not abbreviated, not with [=value]. *)
Definition omits (d : string) (argv : list string) : bool :=
  match classify (F:=F) parser argv with
  | inl toks => negb (existsb (selects d) toks)
  | inr _ => true
  end.


End InvocationPredicates.

(* ===================================================================== *)
(** ** Further predicates *)

From Stdlib Require Import Permutation Sorted.



(** The value of a decimal digit. *)
Definition digit_value (c : ascii) : nat := nat_of_ascii c - 48.

(** A UTC offset: a sign, two digits of hours up to 23, a colon, two digits
    of minutes up to 59, and nothing else. *)
Definition tz_shape (s : string) : Prop :=
  exists sign h1 h2 m1 m2,
    s = String sign (String h1 (String h2 (String ":"
          (String m1 (String m2 EmptyString)))))
    /\ (sign = "+"%char \/ sign = "-"%char)
    /\ PyStr.isdigit h1 = true /\ PyStr.isdigit h2 = true
    /\ PyStr.isdigit m1 = true /\ PyStr.isdigit m2 = true
    /\ 10 * digit_value h1 + digit_value h2 <= 23
    /\ 10 * digit_value m1 + digit_value m2 <= 59.

Section WorkAndOutput.

Variable F : Type.

(** A dataclass constructor ran. *)
Definition is_record (e : Event F) : bool :=
  match e with Construct _ => true | _ => false end.

(** Computation, as opposed to output: a call into the library or the
    construction of a record. *)
Definition is_work (e : Event F) : bool := is_call e || is_record e.

(** Something was written, to standard output or to standard error. *)
Definition is_output (e : Event F) : bool := is_stdout e || is_stderr e.

(** The events of one body lookup that ended with [b]. *)
Definition body_events (name : string) (b : option BodyOut) : list (Event F) :=
  Call (Call_get_body_by_name name)
  :: match b with Some _ => [Construct "BodyOut"] | None => [] end.

End WorkAndOutput.

Section Renderable.

Variable F : Type.
Variable B : PyBuiltins F.


(** A distribution that [_print_dist] can print: a dict whose scores can
    all be computed, or a value without an [items] attribute. *)
Definition printable (dist : PyVal F) : Prop :=
  match dist with
  | PyDict d => exists ks, keyed B d = Ok ks
  | _ => attr dist "items" = None
  end.



End Renderable.

(* ===================================================================== *)
(** ** The program on concrete command lines *)

(** A summary with 60 aspects. *)
Definition sixty_aspects : ChartSummaryOut Z :=
  {| sum_person := "Ada";
     sum_dt_utc_iso := "1990-01-01T10:00:00";
     sum_location := [("lat", 41%Z); ("lon", 29%Z)];
     sum_sun := None;
     sum_moon := None;
     sum_aspects :=
       repeat {| asp_body1 := "Sun"; asp_symbol := "*"; asp_body2 := "Moon";
                 asp_orb := "1 00'" |} 60;
     sum_element_distribution := PyNone;
     sum_modality_distribution := PyNone;
     sum_houses := [] |}.

(** The record of [Demo.argv "+02:00"], for the format [fmt]. *)
Definition ada (fmt : string) : PluginInput Z :=
  {| in_person := "Ada"; in_birth := "1990-01-01 12:00"; in_tz := "+02:00";
     in_lat := 41%Z; in_lon := 29%Z; in_house_system := "Placidus";
     in_ephe_path := None; in_output_format := fmt |}.

(** A chart whose only house has no [id]. *)
Definition bare_chart : PyVal Z :=
  PyObj "NatalChart" [("houses", PyList [PyObj "House" []])].

(** A library that answers every body lookup with [None] and builds
    [bare_chart]. *)
Definition bare_library : Nataly Z :=
  {| to_utc := to_utc (Demo.nataly 0 true);
     isoformat := isoformat (Demo.nataly 0 true);
     create_orb_config := create_orb_config (Demo.nataly 0 true);
     NatalChart := fun _ _ _ _ _ _ => Ok bare_chart;
     get_body_by_name := fun _ _ => Ok PyNone |}.


(* ===================================================================== *)
(** ** What argparse guarantees about the namespace *)

(** Case analysis on the matches of a hypothesis. *)
Ltac break_hyp :=
  match goal with
  | H : context [match ?x with _ => _ end] |- _ =>
      lazymatch x with
      | context [match _ with _ => _ end] => fail
      | _ => destruct x eqn:?
      end
  | H : inl _ = inl _ |- _ => inversion H; clear H; subst
  | H : inr _ = inr _ |- _ => inversion H; clear H; subst
  | H : Some _ = Some _ |- _ => inversion H; clear H; subst
  | H : (_, _) = (_, _) |- _ => inversion H; clear H; subst
  end.

(** Inversion of a [Forall2] over a list of known length. *)
Ltac inv_Forall2 :=
  repeat match goal with
         | H : Forall2 _ (_ :: _) _ |- _ => inversion H; clear H; subst
         | H : Forall2 _ [] _ |- _ => inversion H; clear H; subst
         end.

Section ArgparseFacts.

Variable F : Type.
Variable B : PyBuiltins F.

Lemma lookup_option_In (p : list (Argument F)) os a :
  lookup_option p os = Some a -> In a p.
Proof.
  unfold lookup_option. intros H. apply find_some in H. tauto.
Qed.

Lemma parse_optional_tok_ok (p : list (Argument F)) arg t :
  parse_optional p arg = inl t -> tok_ok p t.
Proof.
  unfold parse_optional. intros H.
  repeat (break_hyp; try discriminate); cbn [tok_ok]; auto;
    match goal with
    | |- match ?o with _ => _ end =>
        destruct o eqn:Hl; auto; eapply lookup_option_In; eassumption
    end.
Qed.

Lemma classify_tok_ok (p : list (Argument F)) args : forall toks,
  classify p args = inl toks -> Forall (tok_ok p) toks.
Proof.
  induction args as [|a r IH]; cbn [classify]; intros toks H.
  - inversion H. constructor.
  - destruct (String.eqb a "--").
    + inversion H; subst. constructor; [exact I|].
      clear. induction r; cbn [map]; constructor; cbn [tok_ok]; auto.
    + destruct (parse_optional p a) as [t|e] eqn:Hp; [|discriminate].
      destruct (classify p r) as [ts|e]; [|discriminate].
      inversion H; subst. constructor; auto.
      eapply parse_optional_tok_ok; eassumption.
Qed.

Lemma one_of_In s l : one_of s l = true <-> In s l.
Proof.
  unfold one_of. rewrite existsb_exists. split.
  - intros [x [Hin Heq]]. apply String.eqb_eq in Heq. now subst.
  - intros Hin. exists s. split; auto. apply String.eqb_refl.
Qed.

Lemma get_value_typed a os s v :
  get_value B a os s = inl v -> typed a v.
Proof.
  unfold get_value, typed. intros H.
  destruct (type_ a); cbn in H.
  - destruct (choices a) as [allowed|].
    + destruct (existsb (String.eqb s) allowed) eqn:Hc; inversion H; subst.
      exists s. split; auto. now apply one_of_In.
    + inversion H; subst. exists s. auto.
  - destruct (float_of_str B s) as [f|]; cbn in H; [|discriminate].
    exists f.
    destruct (choices a) as [allowed|];
      [destruct (existsb (String.eqb s) allowed)|]; now inversion H.
Qed.

(** Replacing the entry of a [store] argument by a value it may store. *)
Lemma store_entry_ok a v (st : ParseState F) :
  In a stores -> ns_ok st -> stored a v ->
  ns_ok {| ps_ns := setattr (ps_ns st) (dest a) v;
           ps_seen := dest a :: ps_seen st;
           ps_extras := ps_extras st |}.
Proof.
  intros Hin Hok Hv.
  unfold ns_ok in *. cbn [ps_ns ps_seen].
  unfold stores, parser in Hin, Hok |- *. cbn [tl] in Hin, Hok |- *.
  inv_Forall2.
  repeat match goal with
         | x : (string * PyVal F)%type |- _ => destruct x
         | H : _ /\ _ |- _ => destruct H
         end.
  cbn [fst snd] in *. clear H1. subst.
  cbn [In] in Hin.
  repeat (destruct Hin as [Hin|Hin]; [subst a|]); [..|contradiction];
    unfold entry_ok, stored, typed in *;
    cbv [add_argument dest type_ choices default strip_dashes one_of existsb
         dashes_to_underscores is_dash Ascii.eqb Bool.eqb setattr String.eqb
         orb]
      in *;
    repeat first [apply Forall2_nil | apply Forall2_cons; [split|]];
    cbn [fst snd]; auto.
Qed.

Lemma take_store_ok a os value st st' :
  In a stores -> ns_ok st -> take_store B a os value st = inl st' ->
  ns_ok st' /\ ps_extras st' = ps_extras st.
Proof.
  unfold take_store. intros Hin Hok H.
  destruct (String.eqb value "--").
  - inversion H; subst; clear H. split; [|reflexivity].
    apply store_entry_ok; auto. now right.
  - destruct (get_value B a os value) as [v|e] eqn:Hv; [|discriminate].
    apply get_value_typed in Hv.
    inversion H; subst; clear H. split; [|reflexivity].
    apply store_entry_ok; auto. now left.
Qed.

Lemma store_in_stores a :
  In a (parser (F:=F)) -> kind a = Store -> In a stores.
Proof.
  unfold stores, parser. cbn [tl]. intros [H|H] Hk; [|exact H].
  subst a. discriminate.
Qed.

Lemma extra_ok s (st : ParseState F) : ns_ok st -> ns_ok (extra s st).
Proof. unfold ns_ok, extra. cbn [ps_ns ps_seen]. auto. Qed.

(** An invariant of the parse state that every step of the consuming loop
    keeps is kept by the loop; [allowed] says which actions the strings
    may select. *)
Section ConsumeInvariant.

Variable I : ParseState F -> Prop.
Variable allowed : Argument F -> Prop.

Hypothesis I_extra : forall s st, I st -> I (extra s st).
Hypothesis I_store : forall a os v st st',
  allowed a -> kind a = Store -> I st ->
  take_store B a os v st = inl st' -> I st'.

Lemma consume_inv n : forall toks st st',
  length toks <= n ->
  Forall (tok_allowed allowed) toks -> I st ->
  consume B parser toks st = inr st' -> I st'.
Proof.
  induction n as [|n IH]; intros toks st st' Hlen Htok Hok H.
  - destruct toks; [|cbn in Hlen; lia]. cbn in H.
    inversion H; subst. exact Hok.
  - destruct toks as [|t rest]; [cbn in H; inversion H; subst; exact Hok|].
    cbn [length] in Hlen. inversion Htok as [|? ? Ht Hrest]; subst.
    destruct t as [s| |[a|] os explicit raw]; cbn [consume] in H.
    + eapply IH; [| |apply I_extra|]; eauto. lia.
    + eapply IH; [| |apply I_extra|]; eauto. lia.
    + cbn [tok_allowed] in Ht.
      destruct (kind a) eqn:Hk.
      * destruct explicit as [e|].
        -- destruct (take_store B a os e st) as [st1|err] eqn:Hts;
             [|discriminate].
           eapply IH; [| | |exact H]; auto; [lia|].
           eapply I_store; eauto.
        -- destruct rest as [|[v| |] rest1]; try discriminate.
          inversion Hrest as [|? ? Ht1 Hrest1]; subst.
          cbn [length] in Hlen.
          destruct (take_store B a os v st) as [st1|err] eqn:Hts;
            [|discriminate].
          eapply IH; [| | |exact H]; auto; [lia|].
          eapply I_store; eauto.
      * destruct explicit; [destruct (flag_chain parser os s)|]; discriminate.
    + eapply IH; [| |apply I_extra|]; eauto. lia.
Qed.

End ConsumeInvariant.

Lemma consume_ok toks st st' :
  Forall (tok_ok parser) toks -> ns_ok st ->
  consume B parser toks st = inr st' -> ns_ok st'.
Proof.
  intros Htok Hok H.
  assert (Hstore : forall a os v s s',
             In a parser -> kind a = Store -> ns_ok s ->
             take_store B a os v s = inl s' -> ns_ok s').
  { intros a os v s s' Hin Hk Hs Ht.
    eapply take_store_ok; [|exact Hs|exact Ht]. now apply store_in_stores. }
  assert (Htok' : Forall (tok_allowed (fun a => In a (parser (F:=F)))) toks).
  { eapply Forall_impl; [|exact Htok]. intros [| |[]]; auto. }
  exact (@consume_inv (@ns_ok F) (fun a => In a parser) extra_ok Hstore
           (length toks) toks st st' (le_n _) Htok' Hok H).
Qed.

Lemma initial_ok :
  ns_ok {| ps_ns := initial_namespace (F:=F) parser;
           ps_seen := []; ps_extras := [] |}.
Proof.
  unfold ns_ok, stores, parser. cbn.
  repeat constructor.
Qed.

Lemma filter_nil {A} (f : A -> bool) l :
  filter f l = [] -> forall x, In x l -> f x = false.
Proof.
  induction l as [|y l IH]; cbn; intros H x Hin; [contradiction|].
  destruct (f y) eqn:Hy; [discriminate|].
  destruct Hin as [->|Hin]; auto.
Qed.

Lemma parse_args_state argv fields :
  parse_args B parser argv = Namespace fields ->
  exists toks st,
    classify parser argv = inl toks
    /\ consume B parser toks {| ps_ns := initial_namespace parser;
                                ps_seen := []; ps_extras := [] |} = inr st
    /\ ps_ns st = fields /\ ns_ok st
    /\ forall a : Argument F, In a parser -> required a = true ->
                              one_of (dest a) (ps_seen st) = true.
Proof.
  unfold parse_args. intros H.
  destruct (classify parser argv) as [toks|e] eqn:Hc; [|discriminate].
  destruct (consume B parser toks _) as [x|st] eqn:Hs.
  { destruct x; discriminate || (inversion H; subst).
    (* consume never stops with a namespace *)
    exfalso. clear - Hs.
    revert Hs. generalize {| ps_ns := initial_namespace (F:=F) parser;
                             ps_seen := []; ps_extras := [] |}.
    remember (length toks) as n eqn:Hn.
    assert (Hle : length toks <= n) by lia. clear Hn.
    revert toks Hle. induction n as [|n IH]; intros toks Hle st0 Hs.
    - destruct toks; [discriminate|cbn in Hle; lia].
    - destruct toks as [|t rest]; [discriminate|].
      cbn [length] in Hle.
      destruct t as [s| |[a|] os explicit raw]; cbn [consume] in Hs;
        try (eapply IH; [|exact Hs]; lia).
      destruct (kind a); destruct explicit as [e|].
      + destruct (take_store B a os e st0); [|discriminate].
        eapply IH; [|exact Hs]; lia.
      + destruct rest as [|[v| |] rest1]; try discriminate.
        destruct (take_store B a os v st0); [|discriminate].
        eapply IH; [|exact Hs]; cbn [length] in *; lia.
      + destruct (flag_chain parser os e); discriminate.
      + discriminate. }
  destruct (filter _ parser) eqn:Hf; [|discriminate].
  destruct (ps_extras st) eqn:He; [|discriminate].
  inversion H; subst. exists toks, st.
  split; [reflexivity|]. split; [exact Hs|]. split; [reflexivity|]. split.
  - eapply consume_ok; [|apply initial_ok|exact Hs].
    eapply classify_tok_ok; eassumption.
  - intros a Hin Hr. pose proof (filter_nil _ _ Hf a Hin) as Hx.
    cbn in Hx. rewrite Hr in Hx. cbn in Hx.
    unfold was_seen in Hx. unfold one_of.
    now destruct (existsb _ _).
Qed.

Lemma parse_args_shape argv fields :
  parse_args B parser argv = Namespace fields -> namespace_shape fields.
Proof.
  intros H.
  destruct (parse_args_state _ H) as (toks & st & _ & _ & Hns & Hok & Hreq).
  subst fields. unfold ns_ok, stores in Hok.
  assert (Hp := fun n a (Hn : nth_error (parser (F:=F)) n = Some a) Hr =>
                  Hreq a (nth_error_In _ _ Hn) Hr).
  pose proof (Hp 1 _ eq_refl eq_refl) as S1.
  pose proof (Hp 2 _ eq_refl eq_refl) as S2.
  pose proof (Hp 3 _ eq_refl eq_refl) as S3.
  pose proof (Hp 4 _ eq_refl eq_refl) as S4.
  pose proof (Hp 5 _ eq_refl eq_refl) as S5.
  clear Hp Hreq.
  unfold parser in Hok. cbn [tl] in Hok. inv_Forall2.
  repeat match goal with
         | x : (string * PyVal F)%type |- _ => destruct x
         | H : _ /\ _ |- _ => destruct H
         end.
  cbn [fst snd] in *. subst.
  unfold entry_ok, stored, typed in *.
  rewrite S1, S2, S3, S4, S5 in *. clear S1 S2 S3 S4 S5.
  cbn in *.
  unfold namespace_shape, text_entry, float_entry, format_entry.
  do 8 eexists. split; [reflexivity|].
  repeat match goal with
         | H : context [if ?c then _ else _] |- _ => destruct c
         end;
    repeat match goal with
           | H : Some _ = Some _ |- _ => inversion H; clear H; subst
           end;
    repeat split;
    match goal with
    | |- _ = PyNone \/ _ => idtac
    | |- _ => idtac
    end;
    try (left; eexists; split; [reflexivity|cbn; auto]; fail);
    try (left; reflexivity);
    try (right; left; eexists; reflexivity);
    try (left; eexists; reflexivity);
    repeat match goal with
           | H : (exists _, _) \/ _ |- _ =>
               destruct H as [(? & H)|H]
           | H : _ /\ _ |- _ => destruct H
           end;
    subst; eauto 6.
Qed.

End ArgparseFacts.

(* ===================================================================== *)
(** ** Computations and their traces *)

Section MonadFacts.

Variable F : Type.

Lemma bind_ok_inv {A C} (m : M F A) (k : A -> M F C) t c :
  bind m k = (t, Ok c) ->
  exists t1 a t2, m = (t1, Ok a) /\ k a = (t2, Ok c) /\ t = (t1 ++ t2)%list.
Proof.
  unfold bind. destruct m as [t1 [a|e]]; [|discriminate].
  destruct (k a) as [t2 r] eqn:Hk. intros H. inversion H; subst.
  exists t1, a, t2. auto.
Qed.

Lemma trace_bind {A C} (m : M F A) (k : A -> M F C) :
  trace (bind m k)
  = (trace m ++ match outcome m with
                | Ok a => trace (k a)
                | Raise _ => []
                end)%list.
Proof.
  unfold bind, trace, outcome. destruct m as [t1 [a|e]]; cbn.
  - now destruct (k a).
  - now rewrite app_nil_r.
Qed.

Lemma outcome_bind {A C} (m : M F A) (k : A -> M F C) :
  outcome (bind m k)
  = match outcome m with
    | Ok a => outcome (k a)
    | Raise e => Raise e
    end.
Proof.
  unfold bind, outcome. destruct m as [t1 [a|e]]; cbn; auto.
  now destruct (k a).
Qed.

Lemma trace_try_except {A} (m : M F A) h :
  trace (try_except m h)
  = (trace m ++ match outcome m with
                | Raise (Exception cls msg) => trace (h cls msg)
                | _ => []
                end)%list.
Proof.
  unfold try_except, trace, outcome.
  destruct m as [t [a|[cls msg|code|cls msg]]]; cbn;
    try now rewrite app_nil_r.
  now destruct (h cls msg).
Qed.

Lemma outcome_try_except {A} (m : M F A) h :
  outcome (try_except m h)
  = match outcome m with
    | Raise (Exception cls msg) => outcome (h cls msg)
    | r => r
    end.
Proof.
  unfold try_except, outcome.
  destruct m as [t [a|[cls msg|code|cls msg]]]; cbn; auto.
  now destruct (h cls msg).
Qed.


End MonadFacts.

(* ===================================================================== *)
(** ** Argument validation *)

Section Validation.

Variable F : Type.
Variable B : PyBuiltins F.
Variable L : Nataly F.
Variable E : OsEnv.

(** [float] of a namespace entry of [--lat] or [--lon]. *)
Lemma py_float_entry (v : PyVal F) :
  float_entry v ->
  (exists f, v = PyFloat f /\ py_float B v = Ok f)
  \/ (v = PyList []
      /\ py_float B v
         = Raise (Exception "TypeError"
                    "float() argument must be a string or a real number, not 'list'")).
Proof.
  intros [(f & ->)| ->]; [left; eauto|right; split; reflexivity].
Qed.

(** What [_parse_args] does with a namespace. *)
Lemma _parse_args_namespace argv person birth tz lat lon hs ep fmt :
  parse_args B parser argv
  = Namespace [("person", person); ("birth", birth); ("tz", tz);
               ("lat", lat); ("lon", lon); ("house_system", hs);
               ("ephe_path", ep); ("format", fmt)] ->
  _parse_args B argv
  = if tz_re_match (PyStr.strip (py_str B tz))
    then match py_float B lat with
         | Raise e => ([], Raise e)
         | Ok la =>
             match py_float B lon with
             | Raise e => ([], Raise e)
             | Ok lo =>
                 ([Construct "PluginInput"],
                  Ok {| in_person := PyStr.strip (py_str B person);
                        in_birth := PyStr.strip (py_str B birth);
                        in_tz := PyStr.strip (py_str B tz);
                        in_lat := la;
                        in_lon := lo;
                        in_house_system := PyStr.strip (py_str B hs);
                        in_ephe_path :=
                          if py_truthy B ep
                          then Some (PyStr.strip (py_str B ep)) else None;
                        in_output_format := py_str B fmt |})
             end
         end
    else ([], Raise (Exception "ValueError"
                      ("Invalid --tz value: " ++ PyStr.strip (py_str B tz)
                       ++ ". Expected format like +02:00"))).
Proof.
  intros H. unfold _parse_args. rewrite H.
  cbn -[tz_re_match PyStr.strip String.append py_str py_float py_truthy].
  destruct (tz_re_match (PyStr.strip (py_str B tz))); [|reflexivity].
  cbn -[PyStr.strip py_str py_float py_truthy].
  destruct (py_float B lat) as [la|e]; [|reflexivity].
  cbn -[PyStr.strip py_str py_float py_truthy].
  destruct (py_float B lon) as [lo|e]; reflexivity.
Qed.

Lemma main_rejected argv cls msg :
  _parse_args B argv = ([], Raise (Exception cls msg)) ->
  main B L E argv = ([PrintErr ("[nataly plugin] Error: " ++ msg)], Ok 1%Z).
Proof.
  intros H. unfold main, pipeline. rewrite H. reflexivity.
Qed.

(** The outcomes of [_parse_args] on a command line that argparse accepts,
    by the stripped [--tz] value and the stored coordinates. *)
Lemma validation_cases argv fields v :
  parse_args B parser argv = Namespace fields ->
  assoc "tz" fields = Some v ->
  (tz_re_match (PyStr.strip (py_str B v)) = false ->
   _parse_args B argv
   = ([], Raise (Exception "ValueError"
                   ("Invalid --tz value: " ++ PyStr.strip (py_str B v)
                    ++ ". Expected format like +02:00"))))
  /\ (tz_re_match (PyStr.strip (py_str B v)) = true ->
      (exists inp, _parse_args B argv = ([Construct "PluginInput"], Ok inp)
                   /\ in_tz inp = PyStr.strip (py_str B v))
      \/ (_parse_args B argv
          = ([], Raise (Exception "TypeError"
                          "float() argument must be a string or a real number, not 'list'"))
          /\ (assoc "lat" fields = Some (PyList [])
              \/ assoc "lon" fields = Some (PyList []))))
  /\ (tz_re_match (PyStr.strip (py_str B v)) = true ->
      forall la lo,
        assoc "lat" fields = Some (PyFloat la) ->
        assoc "lon" fields = Some (PyFloat lo) ->
        exists inp, _parse_args B argv = ([Construct "PluginInput"], Ok inp)
                    /\ in_tz inp = PyStr.strip (py_str B v)).
Proof.
  intros H Hv.
  destruct (parse_args_shape _ _ H)
    as (person & birth & tz & lat & lon & hs & ep & fmt & ->
        & _ & _ & _ & Hlat & Hlon & _).
  cbn in Hv. inversion Hv; subst v. clear Hv.
  rewrite (_parse_args_namespace _ H).
  destruct (tz_re_match (PyStr.strip (py_str B tz)));
    (split; [|split]); try discriminate; try reflexivity; intros _.
  - destruct (py_float_entry Hlat) as [(la & -> & ->)|(-> & ->)];
      [|right; split; [reflexivity|left; reflexivity]].
    destruct (py_float_entry Hlon) as [(lo & -> & ->)|(-> & ->)];
      [|right; split; [reflexivity|right; reflexivity]].
    left. eexists. split; reflexivity.
  - intros la lo Hla Hlo. cbn in Hla, Hlo.
    inversion Hla; inversion Hlo; subst. cbn [py_float].
    eexists. split; reflexivity.
Qed.

(** C1 (amended).  Validation looks at the stripped [--tz] value: when the
    stripped value does not match [_TZ_RE], the run consists of one error
    line on standard error and the exit code 1, with no call into the chart
    library; when it matches, no validation error is raised for it, and
    [_parse_args] returns its record with the stripped value unless [float]
    refuses a latitude or longitude that argparse stored as an empty list,
    which it does only for [--lat=--] and [--lon=--]. *)
Theorem tz_validation_of_stripped_value argv fields v :
  parse_args B parser argv = Namespace fields ->
  assoc "tz" fields = Some v ->
  let tz := PyStr.strip (py_str B v) in
  (tz_re_match tz = false ->
   main B L E argv
   = ([PrintErr ("[nataly plugin] Error: Invalid --tz value: " ++ tz
                 ++ ". Expected format like +02:00")], Ok 1%Z))
  /\ (tz_re_match tz = true ->
      (forall msg,
         outcome (_parse_args B argv) <> Raise (Exception "ValueError" msg))
      /\ ((exists inp,
             _parse_args B argv = ([Construct "PluginInput"], Ok inp)
             /\ in_tz inp = tz)
          \/ (_parse_args B argv
              = ([], Raise (Exception "TypeError"
                              "float() argument must be a string or a real number, not 'list'"))
              /\ (assoc "lat" fields = Some (PyList [])
                  \/ assoc "lon" fields = Some (PyList []))))
      /\ (forall la lo,
            assoc "lat" fields = Some (PyFloat la) ->
            assoc "lon" fields = Some (PyFloat lo) ->
            exists inp,
              _parse_args B argv = ([Construct "PluginInput"], Ok inp)
              /\ in_tz inp = tz)).
Proof.
  intros H Hv tz. destruct (validation_cases _ H Hv) as (Hno & Hyes & Hfl).
  fold tz in Hno, Hyes, Hfl. split.
  - intros Hm. apply main_rejected with (cls := "ValueError"). now apply Hno.
  - intros Hm. split; [|split; [now apply Hyes|now apply Hfl]].
    intros msg. destruct (Hyes Hm) as [(inp & -> & _)|(-> & _)]; discriminate.
Qed.


(** The three ways [main] ends, by how the body of its [try] ends. *)
Lemma main_cases argv :
  match pipeline B L E argv with
  | (t, Ok code) => code = 0%Z /\ main B L E argv = (t, Ok 0%Z)
  | (t, Raise (Exception cls msg)) =>
      main B L E argv
      = ((t ++ [PrintErr ("[nataly plugin] Error: " ++ msg)])%list, Ok 1%Z)
  | (t, Raise e) => main B L E argv = (t, Raise e)
  end.
Proof.
  unfold main. destruct (pipeline B L E argv) as [t [code|[cls msg|c|cls msg]]] eqn:Hp;
    cbn; auto.
  assert (code = 0%Z); [|subst; auto].
  unfold pipeline in Hp.
  repeat match type of Hp with
         | bind _ _ = _ =>
             apply bind_ok_inv in Hp;
             destruct Hp as (? & ? & ? & _ & Hp & _)
         | (let (_, _) := ?x in _) = _ => destruct x
         end.
  now inversion Hp.
Qed.

(** C2 (amended).  [main] returns 0 when the body of its [try] completes;
    when the body raises an instance of [Exception] it prints one line to
    standard error and returns 1; it never propagates an instance of
    [Exception]; any other exception reaches the caller, in particular the
    [SystemExit] of argparse: status 2 for a command line it refuses,
    status 0 after the help. *)
Theorem main_exit_codes argv :
  (forall t code, pipeline B L E argv = (t, Ok code) ->
                  main B L E argv = (t, Ok 0%Z))
  /\ (forall t cls msg,
        pipeline B L E argv = (t, Raise (Exception cls msg)) ->
        main B L E argv
        = ((t ++ [PrintErr ("[nataly plugin] Error: " ++ msg)])%list, Ok 1%Z))
  /\ (forall t e, pipeline B L E argv = (t, Raise e) ->
                  (forall cls msg, e <> Exception cls msg) ->
                  main B L E argv = (t, Raise e))
  /\ (forall cls msg, outcome (main B L E argv) <> Raise (Exception cls msg))
  /\ (forall code, outcome (main B L E argv) = Ok code ->
                   code = 0%Z \/ code = 1%Z)
  /\ (forall e, parse_args B parser argv = ExitError e ->
                main B L E argv
                = ([Argparse (UsageAndError e)], Raise (SystemExit 2)))
  /\ (parse_args B parser argv = ExitHelp ->
      main B L E argv = ([Argparse HelpText], Raise (SystemExit 0))).
Proof.
  assert (Hexit : (forall e, parse_args B parser argv = ExitError e ->
                     main B L E argv
                     = ([Argparse (UsageAndError e)], Raise (SystemExit 2)))
                  /\ (parse_args B parser argv = ExitHelp ->
                      main B L E argv
                      = ([Argparse HelpText], Raise (SystemExit 0)))).
  { split; intros; unfold main, pipeline, _parse_args;
      match goal with H : parse_args _ _ _ = _ |- _ => rewrite H end;
      reflexivity. }
  destruct Hexit as [Herr Hhelp].
  pose proof (main_cases argv) as H.
  split; [|split; [|split; [|split; [|split; [|split]]]]];
    [| | | | |exact Herr|exact Hhelp].
  - intros t code Hp. rewrite Hp in H. now destruct H.
  - intros t cls msg Hp. now rewrite Hp in H.
  - intros t e Hp Hne. rewrite Hp in H.
    destruct e; [exfalso; eapply Hne; reflexivity|exact H|exact H].
  - intros cls msg Ho.
    destruct (pipeline B L E argv) as [t [code|[c m|code|c m]]];
      [destruct H as [_ H]| | |]; rewrite H in Ho; discriminate.
  - intros code Ho.
    destruct (pipeline B L E argv) as [t [code'|[c m|code'|c m]]];
      [destruct H as [_ H]| | |]; rewrite H in Ho; cbn in Ho;
      inversion Ho; auto.
Qed.

End Validation.

(* ===================================================================== *)
(** ** The events of each stage *)

Section Stages.

Variable F : Type.
Variable B : PyBuiltins F.
Variable L : Nataly F.
Variable E : OsEnv.

Section ForallTrace.

Variable P : Event F -> Prop.

Lemma Forall_bind {A C} (m : M F A) (k : A -> M F C) :
  Forall P (trace m) ->
  (forall a, outcome m = Ok a -> Forall P (trace (k a))) ->
  Forall P (trace (bind m k)).
Proof.
  intros Hm Hk. rewrite trace_bind. apply Forall_app. split; auto.
  destruct (outcome m); auto.
Qed.

Lemma Forall_try_except {A} (m : M F A) h :
  Forall P (trace m) ->
  (forall cls msg, Forall P (trace (h cls msg))) ->
  Forall P (trace (try_except m h)).
Proof.
  intros Hm Hh. rewrite trace_try_except. apply Forall_app. split; auto.
  destruct (outcome m) as [|[]]; auto.
Qed.

Lemma Forall_lift {A} (r : Result A) : Forall P (trace (lift (F:=F) r)).
Proof. constructor. Qed.

Lemma Forall_ret {A} (a : A) : Forall P (trace (ret (F:=F) a)).
Proof. constructor. Qed.

Lemma Forall_raise {A} e : Forall P (trace (raise (F:=F) (A:=A) e)).
Proof. constructor. Qed.

Lemma Forall_emit e : P e -> Forall P (trace (emit e)).
Proof. intros H. repeat constructor. exact H. Qed.

Lemma Forall_call {A} c (r : Result A) :
  P (Call c) -> Forall P (trace (call c r)).
Proof.
  intros H. unfold call. apply Forall_bind.
  - now apply Forall_emit.
  - intros. apply Forall_lift.
Qed.

Lemma Forall_mapM {A C} (f : A -> M F C) l :
  (forall x, Forall P (trace (f x))) -> Forall P (trace (mapM f l)).
Proof.
  intros Hf. induction l as [|x r IH]; cbn [mapM].
  - apply Forall_ret.
  - apply Forall_bind; auto. intros. apply Forall_bind; auto.
Qed.

Lemma Forall_forM_ {A} (f : A -> M F unit) l :
  (forall x, Forall P (trace (f x))) -> Forall P (trace (forM_ l f)).
Proof.
  intros Hf. induction l as [|x r IH]; cbn [forM_].
  - apply Forall_ret.
  - apply Forall_bind; auto.
Qed.

End ForallTrace.

(** Breaks a goal [Forall P (trace m)] along the structure of [m]. *)
Ltac trace_events :=
  repeat first
    [ apply Forall_ret | apply Forall_raise | apply Forall_lift
    | apply Forall_emit | apply Forall_call
    | apply Forall_mapM; intros | apply Forall_forM_; intros
    | apply Forall_bind; [|intros]
    | apply Forall_try_except; [|intros]
    | match goal with
      | |- Forall _ (trace (match ?x with _ => _ end)) => destruct x
      | |- Forall _ (trace (let (_, _) := ?x in _)) => destruct x
      end ].

Lemma parse_events argv :
  Forall (fun e => is_parse_event e = true) (trace (_parse_args B argv)).
Proof.
  unfold _parse_args.
  destruct (parse_args B parser argv); trace_events; reflexivity.
Qed.

Lemma build_events inp :
  Forall (is_build_event E inp) (trace (_build_chart L E inp)).
Proof.
  unfold _build_chart. trace_events; cbn; auto.
Qed.

Lemma safe_get_body_events chart name :
  Forall (fun e => is_nested_event e = true)
         (trace (_safe_get_body B L chart name)).
Proof.
  unfold _safe_get_body. trace_events; reflexivity.
Qed.

Lemma aspects_events l :
  Forall (fun e => is_nested_event e = true) (trace (mapM (aspect_out B) l)).
Proof. unfold aspect_out. trace_events; reflexivity. Qed.

Lemma houses_events l :
  Forall (fun e => is_nested_event e = true) (trace (mapM (house_out B) l)).
Proof. unfold house_out. trace_events; reflexivity. Qed.

Lemma print_dist_events label dist :
  Forall (fun e => is_print e = true) (trace (_print_dist B label dist)).
Proof.
  unfold _print_dist. trace_events; reflexivity.
Qed.

Lemma text_events summary :
  Forall (fun e => is_print e = true) (trace (_print_text B summary)).
Proof.
  unfold _print_text, print_body.
  trace_events; try apply print_dist_events; reflexivity.
Qed.

Lemma json_events (payload : PyVal F) :
  Forall (fun e => e = PrintJson payload) (trace (print_json payload)).
Proof.
  unfold print_json. trace_events; reflexivity.
Qed.

(** *** Counting constructor calls *)

Lemma constructions_app c (t1 t2 : list (Event F)) :
  constructions c (t1 ++ t2) = constructions c t1 + constructions c t2.
Proof. unfold constructions. now rewrite filter_app, length_app. Qed.

Lemma constructions_zero c (t : list (Event F)) :
  Forall (fun e => is_construct c e = false) t -> constructions c t = 0.
Proof.
  unfold constructions. induction 1 as [|e t He _ IH]; cbn; auto.
  now rewrite He.
Qed.

Lemma constructions_bind {A C} c (m : M F A) (k : A -> M F C) n1 n2 :
  constructions c (trace m) <= n1 ->
  (forall a, constructions c (trace (k a)) <= n2) ->
  constructions c (trace (bind m k)) <= n1 + n2.
Proof.
  intros H1 H2. rewrite trace_bind, constructions_app.
  destruct (outcome m) as [a|e].
  - specialize (H2 a). lia.
  - cbn. lia.
Qed.

Lemma nested_not_record c (e : Event F) :
  c = "PluginInput" \/ c = "ChartSummaryOut" ->
  is_nested_event e = true -> is_construct c e = false.
Proof.
  intros Hc. destruct e as [| | | |[]|cls]; cbn; try discriminate; auto.
  unfold one_of. cbn [existsb]. rewrite !orb_true_iff.
  intros [H|[H|[H|H]]]; try discriminate;
    apply String.eqb_eq in H; subst cls; destruct Hc; subst c; reflexivity.
Qed.

Lemma nested_zero c (t : list (Event F)) :
  c = "PluginInput" \/ c = "ChartSummaryOut" ->
  Forall (fun e => is_nested_event e = true) t -> constructions c t = 0.
Proof.
  intros Hc H. apply constructions_zero.
  eapply Forall_impl; [|exact H]. intros e. now apply nested_not_record.
Qed.

Lemma print_zero c (t : list (Event F)) :
  Forall (fun e => is_print e = true) t -> constructions c t = 0.
Proof.
  intros H. apply constructions_zero. eapply Forall_impl; [|exact H].
  intros []; cbn; auto; discriminate.
Qed.

Lemma build_zero c inp (t : list (Event F)) :
  Forall (is_build_event E inp) t -> constructions c t = 0.
Proof.
  intros H. apply constructions_zero. eapply Forall_impl; [|exact H].
  intros []; cbn; auto; contradiction.
Qed.

Lemma json_zero c (payload : PyVal F) t :
  Forall (fun e => e = PrintJson payload) t -> constructions c t = 0.
Proof.
  intros H. apply constructions_zero. eapply Forall_impl; [|exact H].
  intros e ->. reflexivity.
Qed.

(** *** Successful stages *)

Lemma _parse_args_ok argv t inp :
  _parse_args B argv = (t, Ok inp) ->
  exists person birth tz lat lon hs ep fmt,
    parse_args B parser argv
    = Namespace [("person", person); ("birth", birth); ("tz", tz);
                 ("lat", PyFloat lat); ("lon", PyFloat lon);
                 ("house_system", hs); ("ephe_path", ep); ("format", fmt)]
    /\ (ep = PyNone \/ text_entry ep)
    /\ format_entry fmt
    /\ tz_re_match (PyStr.strip (py_str B tz)) = true
    /\ t = [Construct "PluginInput"]
    /\ inp = {| in_person := PyStr.strip (py_str B person);
                in_birth := PyStr.strip (py_str B birth);
                in_tz := PyStr.strip (py_str B tz);
                in_lat := lat;
                in_lon := lon;
                in_house_system := PyStr.strip (py_str B hs);
                in_ephe_path :=
                  if py_truthy B ep
                  then Some (PyStr.strip (py_str B ep)) else None;
                in_output_format := py_str B fmt |}.
Proof.
  intros H.
  destruct (parse_args B parser argv) as [fields| |e] eqn:Hp;
    try (unfold _parse_args in H; rewrite Hp in H; discriminate).
  destruct (parse_args_shape _ _ Hp)
    as (person & birth & tz & lat & lon & hs & ep & fmt & ->
        & _ & _ & _ & Hlat & Hlon & _ & Hep & Hfmt).
  rewrite (_parse_args_namespace _ _ Hp) in H.
  destruct (tz_re_match (PyStr.strip (py_str B tz))) eqn:Hm; [|discriminate].
  destruct (py_float_entry B Hlat) as [(la & -> & Hla)|(-> & Hla)];
    rewrite Hla in H; [|discriminate].
  destruct (py_float_entry B Hlon) as [(lo & -> & Hlo)|(-> & Hlo)];
    rewrite Hlo in H; [|discriminate].
  exists person, birth, tz, la, lo, hs, ep, fmt.
  inversion H; subst. repeat split; auto.
Qed.

Lemma _parse_args_constructions argv :
  constructions "PluginInput" (trace (_parse_args B argv)) <= 1
  /\ constructions "ChartSummaryOut" (trace (_parse_args B argv)) = 0.
Proof.
  split.
  - destruct (_parse_args B argv) as [t [inp|e]] eqn:H.
    + destruct (_parse_args_ok _ H)
        as (? & ? & ? & ? & ? & ? & ? & ? & _ & _ & _ & _ & -> & _).
      cbn. lia.
    + unfold _parse_args in H.
      destruct (parse_args B parser argv) as [fields| |err] eqn:Hp;
        try (inversion H; subst; cbn; lia).
      destruct (parse_args_shape _ _ Hp)
        as (person & birth & tz & lat & lon & hs & ep & fmt & -> & _).
      pose proof (_parse_args_namespace _ _ Hp) as Hn.
      unfold _parse_args in Hn. rewrite Hp in Hn. rewrite Hn in H.
      destruct (tz_re_match (PyStr.strip (py_str B tz)));
        [|inversion H; subst; cbn; lia].
      destruct (py_float B lat); [|inversion H; subst; cbn; lia].
      destruct (py_float B lon); inversion H; subst; cbn; lia.
  - apply constructions_zero.
    eapply Forall_impl; [|apply parse_events].
    intros [| | | |?|cls]; cbn; try discriminate; auto.
    intros Hc. apply String.eqb_eq in Hc. now subst cls.
Qed.

Lemma _to_summary_ok chart inp iso t summary :
  _to_summary B L chart inp iso = (t, Ok summary) ->
  exists t',
    t = (t' ++ [Construct "ChartSummaryOut"])%list
    /\ Forall (fun e => is_nested_event e = true) t'
    /\ sum_person summary = in_person inp
    /\ sum_dt_utc_iso summary = iso
    /\ sum_location summary = [("lat", in_lat inp); ("lon", in_lon inp)].
Proof.
  unfold _to_summary. intros H.
  apply bind_ok_inv in H. destruct H as (ts & sun & r1 & Hs & H & ->).
  apply bind_ok_inv in H. destruct H as (tm & moon & r2 & Hm & H & ->).
  apply bind_ok_inv in H. destruct H as (t1 & asps & r3 & H1 & H & ->).
  apply bind_ok_inv in H. destruct H as (ta & aout & r4 & Ha & H & ->).
  apply bind_ok_inv in H. destruct H as (t2 & hs & r5 & H2 & H & ->).
  apply bind_ok_inv in H. destruct H as (th & hout & r6 & Hh & H & ->).
  cbn in H. inversion H; subst; clear H.
  unfold lift in H1, H2. inversion H1; inversion H2; subst.
  exists (ts ++ tm ++ ta ++ th)%list. cbn [sum_person sum_dt_utc_iso sum_location].
  repeat split; auto.
  - cbn. now rewrite <- !app_assoc.
  - pose proof (safe_get_body_events chart "Sun") as P1.
    pose proof (safe_get_body_events chart "Moon") as P2.
    pose proof (aspects_events asps) as P3.
    pose proof (houses_events hs) as P4.
    rewrite Hs in P1. rewrite Hm in P2. rewrite Ha in P3. rewrite Hh in P4.
    cbn [trace fst] in *.
    repeat (apply Forall_app; split); auto.
Qed.

Lemma _to_summary_constructions chart inp iso :
  constructions "PluginInput" (trace (_to_summary B L chart inp iso)) = 0
  /\ constructions "ChartSummaryOut" (trace (_to_summary B L chart inp iso)) <= 1.
Proof.
  assert (Hpre : forall c A (m : M F A),
             c = "PluginInput" \/ c = "ChartSummaryOut" ->
             Forall (fun e => is_nested_event e = true) (trace m) ->
             constructions c (trace m) <= 0).
  { intros c A m Hc Hm. rewrite (nested_zero Hc Hm). lia. }
  assert (Hall : forall c, c = "PluginInput" \/ c = "ChartSummaryOut" ->
             constructions c (trace (_to_summary B L chart inp iso))
             <= constructions c [Construct (F:=F) "ChartSummaryOut"]).
  { intros c Hc. unfold _to_summary.
    apply Nat.le_trans
      with (0 + (0 + (0 + (0 + (0 + (0 +
              (constructions c [Construct (F:=F) "ChartSummaryOut"] + 0)))))));
      [|cbn [Nat.add]; lia].
    apply constructions_bind;
      [apply Hpre; auto; apply safe_get_body_events|intros sun].
    apply constructions_bind;
      [apply Hpre; auto; apply safe_get_body_events|intros moon].
    apply constructions_bind; [cbn; lia|intros asps].
    apply constructions_bind;
      [apply Hpre; auto; apply aspects_events|intros aout].
    apply constructions_bind; [cbn; lia|intros hs].
    apply constructions_bind;
      [apply Hpre; auto; apply houses_events|intros hout].
    apply constructions_bind; [cbn; lia|intros; cbn; lia]. }
  split.
  - specialize (Hall "PluginInput" (or_introl eq_refl)). cbn in Hall. lia.
  - specialize (Hall "ChartSummaryOut" (or_intror eq_refl)). cbn in Hall. lia.
Qed.

Lemma pipeline_ok argv t code :
  pipeline B L E argv = (t, Ok code) ->
  exists inp t2 chart iso t3 summary t4 t5,
    _parse_args B argv = ([Construct "PluginInput"], Ok inp)
    /\ _build_chart L E inp = (t2, Ok (chart, iso))
    /\ _to_summary B L chart inp iso = (t3, Ok summary)
    /\ (if one_of (in_output_format inp) ["text"; "both"]
        then _print_text B summary else ret tt) = (t4, Ok tt)
    /\ (if one_of (in_output_format inp) ["json"; "both"]
        then print_json (_to_jsonable summary) else ret tt) = (t5, Ok tt)
    /\ t = (Construct "PluginInput" :: t2 ++ t3 ++ t4 ++ t5)%list.
Proof.
  unfold pipeline. intros H.
  apply bind_ok_inv in H. destruct H as (t1 & inp & r1 & Hp & H & ->).
  apply bind_ok_inv in H. destruct H as (t2 & [chart iso] & r2 & Hb & H & ->).
  apply bind_ok_inv in H. destruct H as (t3 & summary & r3 & Hs & H & ->).
  apply bind_ok_inv in H. destruct H as (t4 & [] & r4 & Ht & H & ->).
  apply bind_ok_inv in H. destruct H as (t5 & [] & r5 & Hj & H & ->).
  cbn in H. inversion H; subst; clear H.
  destruct (_parse_args_ok _ Hp)
    as (? & ? & ? & ? & ? & ? & ? & ? & _ & _ & _ & _ & -> & _).
  exists inp, t2, chart, iso, t3, summary, t4, t5.
  repeat split; auto. cbn. now rewrite app_nil_r.
Qed.

End Stages.

(* ===================================================================== *)
(** ** Records: frozen, and built at most once *)

Section Records.

Variable F : Type.
Variable B : PyBuiltins F.
Variable L : Nataly F.
Variable E : OsEnv.

Lemma text_stage_zero c (b : bool) summary :
  constructions c (trace (if b then _print_text B summary else ret tt)) = 0.
Proof.
  destruct b; [|reflexivity]. apply print_zero, text_events.
Qed.

Lemma json_stage_zero c (b : bool) (payload : PyVal F) :
  constructions c (trace (if b then print_json payload else ret tt)) = 0.
Proof.
  destruct b; [|reflexivity]. eapply json_zero, json_events.
Qed.

Lemma pipeline_constructions argv :
  constructions "PluginInput" (trace (pipeline B L E argv)) <= 1
  /\ constructions "ChartSummaryOut" (trace (pipeline B L E argv)) <= 1.
Proof.
  destruct (_parse_args_constructions B argv) as [Hp1 Hp2].
  unfold pipeline. split.
  - change 1 with (1 + (0 + (0 + (0 + (0 + 0))))).
    apply constructions_bind; [exact Hp1|intros inp].
    apply constructions_bind;
      [erewrite build_zero; [lia|apply build_events]|intros [chart iso]].
    apply constructions_bind;
      [destruct (_to_summary_constructions B L chart inp iso) as [-> _]; lia
      |intros summary].
    apply constructions_bind; [rewrite text_stage_zero; lia|intros _].
    apply constructions_bind; [rewrite json_stage_zero; lia|intros _].
    cbn. lia.
  - change 1 with (0 + (0 + (1 + (0 + (0 + 0))))).
    apply constructions_bind; [lia|intros inp].
    apply constructions_bind;
      [erewrite build_zero; [lia|apply build_events]|intros [chart iso]].
    apply constructions_bind;
      [apply _to_summary_constructions|intros summary].
    apply constructions_bind; [rewrite text_stage_zero; lia|intros _].
    apply constructions_bind; [rewrite json_stage_zero; lia|intros _].
    cbn. lia.
Qed.

Lemma main_constructions argv c :
  constructions c (trace (main B L E argv))
  = constructions c (trace (pipeline B L E argv)).
Proof.
  pose proof (main_cases B L E argv) as H.
  destruct (pipeline B L E argv) as [t [code|[cls msg|code|cls msg]]];
    [destruct H as [_ H]| | |]; rewrite H; cbn [trace fst]; auto.
  rewrite constructions_app. cbn. lia.
Qed.

Lemma main_ok_pipeline argv code :
  outcome (main B L E argv) = Ok code -> code = 0%Z ->
  exists t, pipeline B L E argv = (t, Ok 0%Z).
Proof.
  intros Ho ->. pose proof (main_cases B L E argv) as H.
  destruct (pipeline B L E argv) as [t [code|[cls msg|code|cls msg]]].
  - destruct H as [-> _]. now exists t.
  - rewrite H in Ho. discriminate.
  - rewrite H in Ho. discriminate.
  - rewrite H in Ho. discriminate.
Qed.

(** C8 (amended).  The five record classes are frozen: assigning to or
    deleting a field of an instance raises and changes nothing.  In every
    run the input record and the summary record are each constructed at
    most once, and exactly once when [main] returns 0. *)
Theorem records_frozen_and_built_at_most_once argv :
  (forall cls, In cls dataclasses ->
     dc_frozen cls = true
     /\ (forall (obj : list (string * PyVal F)) name v,
           exists msg, dataclass_setattr cls obj name v
                       = Raise (Exception "FrozenInstanceError" msg))
     /\ (forall (obj : list (string * PyVal F)) name,
           exists msg, dataclass_delattr cls obj name
                       = Raise (Exception "FrozenInstanceError" msg)))
  /\ constructions "PluginInput" (trace (main B L E argv)) <= 1
  /\ constructions "ChartSummaryOut" (trace (main B L E argv)) <= 1
  /\ (outcome (main B L E argv) = Ok 0%Z ->
      constructions "PluginInput" (trace (main B L E argv)) = 1
      /\ constructions "ChartSummaryOut" (trace (main B L E argv)) = 1).
Proof.
  split; [|rewrite !main_constructions; split; [|split]].
  - intros cls Hin. unfold dataclasses in Hin. cbn [In] in Hin.
    assert (Hf : dc_frozen cls = true)
      by (repeat (destruct Hin as [<-|Hin]; [reflexivity|]); contradiction).
    split; [exact Hf|]. unfold dataclass_setattr, dataclass_delattr.
    rewrite Hf. split; intros; eexists; reflexivity.
  - apply pipeline_constructions.
  - apply pipeline_constructions.
  - intros Ho. destruct (main_ok_pipeline _ Ho eq_refl) as [t Ht].
    rewrite Ht. cbn [trace fst].
    apply pipeline_ok in Ht.
    destruct Ht as (inp & t2 & chart & iso & t3 & summary & t4 & t5
                    & Hp & Hb & Hs & Htx & Hj & ->).
    apply _to_summary_ok in Hs. destruct Hs as (t3' & -> & Hn & _).
    pose proof (build_events L E inp) as H2. rewrite Hb in H2.
    pose proof (text_stage_zero "PluginInput"
                  (one_of (in_output_format inp) ["text"; "both"]) summary) as T1.
    pose proof (text_stage_zero "ChartSummaryOut"
                  (one_of (in_output_format inp) ["text"; "both"]) summary) as T2.
    pose proof (json_stage_zero "PluginInput"
                  (one_of (in_output_format inp) ["json"; "both"])
                  (_to_jsonable summary)) as J1.
    pose proof (json_stage_zero "ChartSummaryOut"
                  (one_of (in_output_format inp) ["json"; "both"])
                  (_to_jsonable summary)) as J2.
    rewrite Htx in T1, T2. rewrite Hj in J1, J2. cbn [trace fst] in *.
    change (Construct "PluginInput" :: t2 ++ (t3' ++ [Construct "ChartSummaryOut"]) ++ t4 ++ t5)%list
      with ([Construct "PluginInput"] ++ t2 ++ (t3' ++ [Construct "ChartSummaryOut"]) ++ t4 ++ t5)%list.
    rewrite !constructions_app.
    rewrite !(build_zero _ H2), T1, T2, J1, J2.
    rewrite (nested_zero (or_introl eq_refl) Hn).
    rewrite (nested_zero (or_intror eq_refl) Hn).
    cbn. auto.
Qed.

End Records.

(* ===================================================================== *)
(** ** The two renderings *)

Section Renderings.

Variable F : Type.
Variable B : PyBuiltins F.
Variable L : Nataly F.
Variable E : OsEnv.

Lemma BodyOut_has_keys (b : BodyOut) :
  has_keys (dc_fields BodyOut_class) (BodyOut_asdict (F:=F) b).
Proof. eexists. split; reflexivity. Qed.

Lemma AspectOut_has_keys (a : AspectOut) :
  has_keys (dc_fields AspectOut_class) (AspectOut_asdict (F:=F) a).
Proof. eexists. split; reflexivity. Qed.

Lemma HouseOut_has_keys (h : HouseOut) :
  has_keys (dc_fields HouseOut_class) (HouseOut_asdict (F:=F) h).
Proof. eexists. split; reflexivity. Qed.

Lemma _to_jsonable_shape (summary : ChartSummaryOut F) lat lon :
  sum_location summary = [("lat", lat); ("lon", lon)] ->
  summary_shape (_to_jsonable summary).
Proof.
  intros Hloc. unfold summary_shape, _to_jsonable. rewrite Hloc.
  do 10 eexists. split; [reflexivity|].
  repeat split.
  - destruct (sum_sun summary); [right; apply BodyOut_has_keys|now left].
  - destruct (sum_moon summary); [right; apply BodyOut_has_keys|now left].
  - apply Forall_map, Forall_forall. intros; apply AspectOut_has_keys.
  - apply Forall_map, Forall_forall. intros; apply HouseOut_has_keys.
Qed.

Lemma print_json_ok (payload : PyVal F) t u :
  print_json payload = (t, Ok u) -> t = [PrintJson payload].
Proof.
  unfold print_json. destruct (json_type_error payload); [discriminate|].
  intros H. now inversion H.
Qed.

Lemma not_json_of_build inp (t : list (Event F)) :
  Forall (is_build_event E inp) t ->
  Forall (fun e => is_print_json e = false) t.
Proof.
  apply Forall_impl. intros []; cbn; auto; contradiction.
Qed.

Lemma not_json_of_nested (t : list (Event F)) :
  Forall (fun e => is_nested_event e = true) t ->
  Forall (fun e => is_print_json e = false) t.
Proof.
  apply Forall_impl. intros []; cbn; auto; discriminate.
Qed.

Lemma not_json_of_print (t : list (Event F)) :
  Forall (fun e => is_print e = true) t ->
  Forall (fun e => is_print_json e = false) t.
Proof.
  apply Forall_impl. intros []; cbn; auto; discriminate.
Qed.

(** C3.  A run that selects JSON output and returns 0 ends by printing one
    JSON document, the only one of the run, and the document has exactly
    the fields of the output summary record. *)
Theorem json_output_has_record_shape argv t inp :
  _parse_args B argv = (t, Ok inp) ->
  one_of (in_output_format inp) ["json"; "both"] = true ->
  outcome (main B L E argv) = Ok 0%Z ->
  exists pre payload,
    trace (main B L E argv) = (pre ++ [PrintJson payload])%list
    /\ Forall (fun e => is_print_json e = false) pre
    /\ summary_shape payload.
Proof.
  intros Hp Hfmt Ho.
  destruct (main_ok_pipeline _ _ _ _ Ho eq_refl) as [tr Htr].
  pose proof (main_cases B L E argv) as Hm. rewrite Htr in Hm.
  destruct Hm as [_ Hm]. rewrite Hm. cbn [trace fst].
  apply pipeline_ok in Htr.
  destruct Htr as (inp' & t2 & chart & iso & t3 & summary & t4 & t5
                   & Hp' & Hb & Hs & Htx & Hj & ->).
  rewrite Hp in Hp'. inversion Hp'; subst inp' t. clear Hp'.
  rewrite Hfmt in Hj. apply print_json_ok in Hj. subst t5.
  apply _to_summary_ok in Hs.
  destruct Hs as (t3' & -> & Hn & _ & _ & Hloc).
  exists (Construct "PluginInput" :: t2 ++ (t3' ++ [Construct "ChartSummaryOut"]) ++ t4)%list,
         (_to_jsonable summary).
  split; [|split].
  - cbn. now rewrite <- !app_assoc.
  - constructor; [reflexivity|].
    repeat (apply Forall_app; split).
    + eapply not_json_of_build. rewrite <- (f_equal fst Hb : trace _ = t2).
      apply build_events.
    + now apply not_json_of_nested.
    + repeat constructor.
    + apply not_json_of_print. rewrite <- (f_equal fst Htx : trace _ = t4).
      destruct (one_of (in_output_format inp) ["text"; "both"]);
        [apply text_events|constructor].
  - eapply _to_jsonable_shape; eassumption.
Qed.

(** *** The text agrees with the JSON document *)


Lemma forM_emit {A} (g : A -> Event F) l :
  forM_ l (fun x => emit (g x)) = (map g l, Ok tt).
Proof.
  induction l as [|x r IH]; cbn [forM_ map]; [reflexivity|].
  rewrite IH. reflexivity.
Qed.

Lemma emit_ok (e : Event F) t u : emit e = (t, Ok u) -> t = [e].
Proof. intros H. now inversion H. Qed.

Lemma ex_app_skip {A} (a b tail : list A) :
  (exists pre, b = pre ++ tail)%list ->
  (exists pre, a ++ b = pre ++ tail)%list.
Proof.
  intros [pre ->]. exists (a ++ pre)%list. now rewrite app_assoc.
Qed.

Lemma print_body_outcome label (b : option BodyOut) :
  outcome (print_body F label b) = Ok tt.
Proof.
  destruct b as [b|]; [|reflexivity]. unfold print_body.
  destruct (body_declination_dms b) as [d|]; [|reflexivity].
  destruct (PyStr.truthy d); reflexivity.
Qed.






(** C9.  When the text rendering completes, its lines from "Aspects"
    on are the header, one line for each of the first 50 aspects in order,
    and the houses; the JSON document holds the whole list of aspects.  So
    with more than 50 aspects the text has fewer aspects than the JSON. *)
Theorem text_prints_first_50_aspects summary :
  outcome (_print_text B summary) = Ok tt ->
  (exists pre,
     trace (_print_text B summary)
     = (pre ++ Print "Aspects"
            :: map (fun a => Print (aspect_line a))
                   (firstn 50 (sum_aspects summary))
            ++ Print EmptyString :: Print "Houses"
            :: map (fun h => Print (house_line h)) (sum_houses summary))%list)
  /\ (exists d,
        _to_jsonable summary = PyDict d
        /\ dict_get d "aspects"
           = Some (PyList (map AspectOut_asdict (sum_aspects summary))))
  /\ length (firstn 50 (sum_aspects summary)) <= 50
  /\ (50 < length (sum_aspects summary) ->
      length (firstn 50 (sum_aspects summary))
      < length (map (AspectOut_asdict (F:=F)) (sum_aspects summary))).
Proof.
  intros Ho. split; [|split; [|split]].
  - destruct (_print_text B summary) as [t r] eqn:H.
    cbn [outcome snd] in Ho. subst r. cbn [trace fst].
    unfold _print_text in H.
    repeat (apply bind_ok_inv in H;
            let t1 := fresh "t" in let a := fresh "a" in
            let r := fresh "r" in let Hm := fresh "Hm" in
            destruct H as (t1 & a & r & Hm & H & ->)).
    rewrite !forM_emit in *.
    repeat match goal with
           | H : emit _ = _ |- _ => apply emit_ok in H; subst
           | H : (_, _) = (_, _) |- _ => inversion H; clear H; subst
           end.
    do 13 apply ex_app_skip.
    exists []. reflexivity.
  - eexists. split; reflexivity.
  - apply firstn_le_length.
  - intros Hlen. rewrite length_map, length_firstn. lia.
Qed.

End Renderings.

(* ===================================================================== *)
(** ** Omitting an option, read off the command line *)

Section Omission.

Variable F : Type.










End Omission.

(* ===================================================================== *)
(** ** Bodies, ephemeris path, house system, output format *)

Section Invocation.

Variable F : Type.
Variable B : PyBuiltins F.
Variable L : Nataly F.
Variable E : OsEnv.

Lemma safe_get_body_never_raises_exception chart name cls msg :
  outcome (_safe_get_body B L chart name) <> Raise (Exception cls msg).
Proof.
  unfold _safe_get_body, call.
  destruct (get_body_by_name L chart name) as [body|[c m|code|c m]];
    cbn; try discriminate.
  destruct (getattr body "house") as [h|[c m|code|c m]]; cbn;
    try discriminate.
  destruct (py_int B h) as [n|[c m|code|c m]]; cbn; discriminate.
Qed.

(** C5 (amended).  When the library raises an [Exception] for the
    requested body, [_safe_get_body] catches it and returns no placement:
    nothing is raised and no event other than the call is produced.  In no
    case does [_safe_get_body] raise an [Exception], so a missing body never
    reaches the handler of [main]. *)
Theorem missing_body_is_absorbed chart name cls msg :
  get_body_by_name L chart name = Raise (Exception cls msg) ->
  _safe_get_body B L chart name
  = ([Call (Call_get_body_by_name name)], Ok None)
  /\ forall chart' name' cls' msg',
       outcome (_safe_get_body B L chart' name')
       <> Raise (Exception cls' msg').
Proof.
  intros H. split.
  - unfold _safe_get_body, call. rewrite H. reflexivity.
  - intros. apply safe_get_body_never_raises_exception.
Qed.







Lemma omitted_unseen d argv toks st :
  omits F d argv = true ->
  classify parser argv = inl toks ->
  consume B parser toks {| ps_ns := initial_namespace parser;
                           ps_seen := []; ps_extras := [] |} = inr st ->
  ~ In d (ps_seen st).
Proof.
  unfold omits. intros Ho Hc Hs. rewrite Hc in Ho.
  apply negb_true_iff in Ho.
  assert (Htok : Forall (tok_allowed (fun a => dest a <> d)) toks).
  { apply Forall_forall. intros t Ht.
    destruct t as [| |[a|]]; cbn; auto. intros Heq.
    assert (existsb (selects d) toks = true); [|congruence].
    apply existsb_exists. eexists. split; [exact Ht|].
    cbn. subst d. apply String.eqb_refl. }
  refine (@consume_inv F B (fun st => ~ In d (ps_seen st))
            (fun a => dest a <> d) _ _ (length toks) toks _ st
            (le_n _) Htok _ Hs).
  - intros s st0 H. exact H.
  - intros a os v st0 st' Ha _ Hst Ht. unfold take_store in Ht.
    destruct (String.eqb v "--"); [|destruct (get_value B a os v)];
      inversion Ht; subst; cbn; intros [Heq|Hin]; auto.
  - cbn. auto.
Qed.




End Invocation.

(* ===================================================================== *)
(** ** The matcher and the language of a regular expression *)




(* ===================================================================== *)
(** ** The accepted UTC offsets *)







(* ===================================================================== *)
(** ** Stripped strings *)

Lemma lstrip_head s c r : PyStr.lstrip s = String c r -> PyStr.isspace c = false.
Proof.
  induction s as [|a s IH]; cbn [PyStr.lstrip]; [discriminate|].
  destruct (PyStr.isspace a) eqn:Ha; auto.
  intros H. inversion H; subst. exact Ha.
Qed.


Lemma rstrip_idempotent s : PyStr.rstrip (PyStr.rstrip s) = PyStr.rstrip s.
Proof.
  induction s as [|a s IH]; [reflexivity|]. cbn [PyStr.rstrip].
  destruct (PyStr.rstrip s) as [|b r] eqn:Hr.
  - destruct (PyStr.isspace a) eqn:Ha; [reflexivity|].
    cbn. now rewrite Ha.
  - change (PyStr.rstrip (String a (String b r)))
      with (match PyStr.rstrip (String b r) with
            | EmptyString =>
                if PyStr.isspace a then EmptyString else String a EmptyString
            | String x y => String a (String x y)
            end).
    now rewrite IH.
Qed.

Lemma lstrip_rstrip s :
  match s with
  | EmptyString => True
  | String c _ => PyStr.isspace c = false
  end ->
  PyStr.lstrip (PyStr.rstrip s) = PyStr.rstrip s.
Proof.
  destruct s as [|c r]; [reflexivity|]. intros Hc. cbn [PyStr.rstrip].
  destruct (PyStr.rstrip r); [rewrite Hc|]; cbn; now rewrite Hc.
Qed.

Lemma strip_idempotent s : PyStr.strip (PyStr.strip s) = PyStr.strip s.
Proof.
  unfold PyStr.strip. rewrite lstrip_rstrip.
  - apply rstrip_idempotent.
  - destruct (PyStr.lstrip s) eqn:Hl; auto. eapply lstrip_head; eassumption.
Qed.


(* ===================================================================== *)
(** ** What [_parse_args] hands on *)

Section ParsedInput.

Variable F : Type.
Variable B : PyBuiltins F.
Variable L : Nataly F.
Variable E : OsEnv.

(** X1.  No string field of the record that [_parse_args] returns carries
    leading or trailing whitespace: stripping the person, the birth time,
    the offset, the house system or the ephemeris path again changes
    nothing. *)
Theorem parsed_fields_are_stripped argv t inp :
  _parse_args B argv = (t, Ok inp) ->
  PyStr.strip (in_person inp) = in_person inp
  /\ PyStr.strip (in_birth inp) = in_birth inp
  /\ PyStr.strip (in_tz inp) = in_tz inp
  /\ PyStr.strip (in_house_system inp) = in_house_system inp
  /\ (forall p, in_ephe_path inp = Some p -> PyStr.strip p = p).
Proof.
  intros H. apply _parse_args_ok in H.
  destruct H as (p & b & tz & la & lo & hs & ep & fmt
                 & _ & _ & _ & _ & _ & ->).
  cbn [in_person in_birth in_tz in_house_system in_ephe_path].
  repeat split; try apply strip_idempotent.
  intros q Hq. destruct (py_truthy B ep); inversion Hq.
  apply strip_idempotent.
Qed.




End ParsedInput.

(* ===================================================================== *)
(** ** Required arguments and defaults *)

Section Defaults.

Variable F : Type.
Variable B : PyBuiltins F.
Variable L : Nataly F.
Variable E : OsEnv.

Lemma Forall2_In_l {A C} (R : A -> C -> Prop) l1 l2 x :
  Forall2 R l1 l2 -> In x l1 -> exists y, In y l2 /\ R x y.
Proof.
  induction 1 as [|a c l1 l2 Hac _ IH]; intros Hin; [contradiction|].
  destruct Hin as [<-|Hin].
  - exists c. split; [now left|exact Hac].
  - destruct (IH Hin) as (y & Hy & HR). exists y. split; [now right|exact HR].
Qed.

Lemma omitted_one_of d argv toks st :
  omits F d argv = true ->
  classify parser argv = inl toks ->
  consume B parser toks {| ps_ns := initial_namespace parser;
                           ps_seen := []; ps_extras := [] |} = inr st ->
  one_of d (ps_seen st) = false.
Proof.
  intros Ho Hc Hs.
  destruct (one_of d (ps_seen st)) eqn:H1; auto.
  apply one_of_In in H1.
  now destruct (omitted_unseen _ _ _ Ho Hc Hs).
Qed.

(** An option that the command line does not select keeps its default. *)
Lemma omitted_entry argv fields (a : Argument F) :
  parse_args B parser argv = Namespace fields ->
  omits F (dest a) argv = true ->
  In a stores ->
  exists v, default a = Some v /\ In (dest a, v) fields.
Proof.
  intros Hp Ho Hin.
  destruct (parse_args_state _ _ Hp) as (toks & st & Hc & Hs & Hns & Hok & _).
  pose proof (omitted_one_of _ _ Ho Hc Hs) as Hone.
  destruct (Forall2_In_l _ Hok Hin) as ([k v] & Hkv & Hk & He).
  cbn [fst snd] in *. unfold entry_ok in He. rewrite Hone in He.
  exists v. split; [now symmetry|]. subst. exact Hkv.
Qed.

(** X5.  A command line that selects no [--person], no [--birth], no
    [--tz], no [--lat] or no [--lon] never reaches the chart library:
    [main] leaves with the [SystemExit] of argparse, having printed only
    the help or the usage error. *)
Theorem required_arguments_enforced d argv :
  In d ["person"; "birth"; "tz"; "lat"; "lon"] ->
  omits F d argv = true ->
  main B L E argv = ([Argparse HelpText], Raise (SystemExit 0))
  \/ exists e, main B L E argv
               = ([Argparse (UsageAndError e)], Raise (SystemExit 2)).
Proof.
  intros Hd Ho.
  destruct (parse_args B parser argv) as [fields| |e] eqn:Hp.
  - exfalso.
    destruct (parse_args_state _ _ Hp) as (toks & st & Hc & Hs & _ & _ & Hreq).
    pose proof (omitted_one_of _ _ Ho Hc Hs) as Hone.
    assert (Ha : exists a : Argument F,
               In a parser /\ required a = true /\ dest a = d).
    { cbn [In] in Hd.
      destruct Hd as [<-|[<-|[<-|[<-|[<-|[]]]]]];
        [exists (nth 1 parser help_action)
        |exists (nth 2 parser help_action)
        |exists (nth 3 parser help_action)
        |exists (nth 4 parser help_action)
        |exists (nth 5 parser help_action)];
        (split; [cbn; auto 10|split; reflexivity]). }
    destruct Ha as (a & Hin & Hr & <-).
    rewrite (Hreq a Hin Hr) in Hone. discriminate.
  - left. unfold main, pipeline, _parse_args. rewrite Hp. reflexivity.
  - right. exists e. unfold main, pipeline, _parse_args. rewrite Hp.
    reflexivity.
Qed.

(** X6.  A command line that argparse and the offset check accept, and
    that does not select [--format], asks for the text rendering; one that
    does not select [--ephe-path] leaves the path of the record unset. *)
Theorem omitted_options_take_defaults argv t inp :
  _parse_args B argv = (t, Ok inp) ->
  (omits F "format" argv = true -> in_output_format inp = "text")
  /\ (omits F "ephe_path" argv = true -> in_ephe_path inp = None).
Proof.
  intros H. apply _parse_args_ok in H.
  destruct H as (p & b & tz & la & lo & hs & ep & fmt
                 & Hp & _ & _ & _ & _ & ->).
  cbn [in_output_format in_ephe_path]. split; intros Ho.
  - destruct (@omitted_entry argv _
                (add_argument "--format" false (PyStr "text") TNone
                              (Some ["text"; "json"; "both"])) Hp Ho)
      as (v & Hv & Hin); [cbn; auto 10|].
    cbn in Hv. inversion Hv; subst v. clear Hv.
    cbn in Hin.
    repeat (destruct Hin as [Hin|Hin]; [try discriminate Hin|]);
      [|contradiction].
    inversion Hin; subst fmt. reflexivity.
  - destruct (@omitted_entry argv _
                (add_argument "--ephe-path" false PyNone TNone None) Hp Ho)
      as (v & Hv & Hin); [cbn; auto 10|].
    cbn in Hv. inversion Hv; subst v. clear Hv.
    cbn in Hin.
    repeat (destruct Hin as [Hin|Hin]; [try discriminate Hin|]);
      [|contradiction].
    inversion Hin; subst ep. reflexivity.
Qed.

End Defaults.

(* ===================================================================== *)
(** ** Body placements and the summary *)

Section Summary.

Variable F : Type.
Variable B : PyBuiltins F.
Variable L : Nataly F.
Variable E : OsEnv.

Lemma py_int_raises v e :
  py_int B v = Raise e -> exists cls msg, e = Exception cls msg.
Proof.
  destruct v; cbn; try (intros H; inversion H; eauto; fail).
  - destruct (int_of_float B f); intros H; inversion H; eauto.
  - destruct (int_of_str B s); intros H; inversion H; eauto.
Qed.

Lemma getattr_raises (v : PyVal F) n e :
  getattr v n = Raise e -> exists cls msg, e = Exception cls msg.
Proof.
  unfold getattr. destruct (attr v n); intros H; inversion H; eauto.
Qed.

Lemma safe_get_body_found chart name body :
  get_body_by_name L chart name = Ok body ->
  exists b,
    _safe_get_body B L chart name
    = ([Call (Call_get_body_by_name name); Construct "BodyOut"], Ok (Some b))
    /\ body_name b = py_str B (getattr_default body "name" (PyStr name))
    /\ (attr body "house" = None -> body_house b = None)
    /\ body_declination_dms b
       = str_unless_none B (getattr_default body "declination_dms" PyNone)
    /\ body_absolute_dms b
       = str_unless_none B (getattr_default body "absolute_dms" PyNone)
    /\ body_signed_dms b
       = (let a := py_str B (getattr_default body "signed_dms"
                               (PyStr EmptyString)) in
          if PyStr.truthy a then a
          else py_str B (getattr_default body "dms" (PyStr EmptyString))).
Proof.
  intros H. unfold _safe_get_body, call. rewrite H.
  cbn [bind emit lift ret try_except app]. unfold getattr.
  destruct (attr body "house") as [h|] eqn:Ha; cbn.
  - destruct (py_int B h) as [n|e] eqn:Hi;
      [|destruct (py_int_raises _ Hi) as (cls & msg & ->)]; cbn;
      (eexists; split; [reflexivity|]); cbn; repeat split; discriminate.
  - eexists. split; [reflexivity|]. cbn. auto.
Qed.

(** X7.  [_safe_get_body] reports no placement exactly when the lookup in
    the library raised an [Exception].  Whenever the library returns a
    body, a [BodyOut] is built, whatever attributes the body has or lacks;
    what the library raises outside [Exception] passes through. *)
Theorem body_is_missing_only_when_lookup_fails chart name :
  (outcome (_safe_get_body B L chart name) = Ok None
   <-> exists cls msg,
         get_body_by_name L chart name = Raise (Exception cls msg))
  /\ (forall body,
        get_body_by_name L chart name = Ok body ->
        exists b,
          _safe_get_body B L chart name
          = ([Call (Call_get_body_by_name name); Construct "BodyOut"],
             Ok (Some b)))
  /\ (forall e,
        get_body_by_name L chart name = Raise e ->
        (forall cls msg, e <> Exception cls msg) ->
        _safe_get_body B L chart name
        = ([Call (Call_get_body_by_name name)], Raise e)).
Proof.
  repeat split.
  - intros H.
    destruct (get_body_by_name L chart name) as [body|[c m|code|c m]] eqn:Hg;
      eauto.
    + destruct (safe_get_body_found _ _ Hg) as (b & Hb & _).
      rewrite Hb in H. discriminate.
    + unfold _safe_get_body, call in H. rewrite Hg in H. discriminate.
    + unfold _safe_get_body, call in H. rewrite Hg in H. discriminate.
  - intros (cls & msg & Hg). unfold _safe_get_body, call. rewrite Hg.
    reflexivity.
  - intros body Hg. destruct (safe_get_body_found _ _ Hg) as (b & Hb & _).
    eauto.
  - intros e Hg He. unfold _safe_get_body, call. rewrite Hg.
    destruct e as [c m|code|c m]; [now destruct (He c m)| |]; reflexivity.
Qed.

(** X8.  When the library answers a lookup with a value that has none of
    the attributes read (such as [None]), [_safe_get_body] still returns a
    placement: it carries the requested name, an empty position, no house
    and no declination, and the text rendering shows it as
    [(House ?)]. *)
Theorem attributeless_body_placeholder chart name v :
  get_body_by_name L chart name = Ok v ->
  (forall n, attr v n = None) ->
  let placeholder :=
    {| body_name := name; body_signed_dms := EmptyString;
       body_house := None; body_declination_dms := None;
       body_absolute_dms := None |} in
  _safe_get_body B L chart name
  = ([Call (Call_get_body_by_name name); Construct "BodyOut"],
     Ok (Some placeholder))
  /\ forall label,
       print_body F label (Some placeholder)
       = ([Print (label ++ " (House ?)")], Ok tt).
Proof.
  intros Hg Hno placeholder. split.
  - destruct (safe_get_body_found _ _ Hg)
      as (b & Hb & Hname & Hhouse & Hdecl & Habs & Hdms).
    rewrite Hb. do 3 f_equal. unfold getattr_default in *.
    rewrite !Hno in *. cbn in *. specialize (Hhouse eq_refl).
    destruct b. cbn in *. subst. reflexivity.
  - intros label. reflexivity.
Qed.

Lemma safe_get_body_ok chart name t o :
  _safe_get_body B L chart name = (t, Ok o) -> t = body_events F name o.
Proof.
  intros H.
  destruct (get_body_by_name L chart name) as [body|[c m|code|c m]] eqn:Hg.
  - destruct (safe_get_body_found _ _ Hg) as (b & Hb & _).
    rewrite Hb in H. inversion H; subst. reflexivity.
  - unfold _safe_get_body, call in H. rewrite Hg in H.
    inversion H; subst. reflexivity.
  - unfold _safe_get_body, call in H. rewrite Hg in H. discriminate.
  - unfold _safe_get_body, call in H. rewrite Hg in H. discriminate.
Qed.

(** Shaping an aspect cannot fail. *)
Lemma aspects_total (l : list (PyVal F)) :
  exists out,
    mapM (aspect_out B) l = (repeat (Construct "AspectOut") (length l), Ok out)
    /\ length out = length l.
Proof.
  induction l as [|x r (out & IH & Hlen)].
  - exists []. split; reflexivity.
  - eexists. cbn [mapM]. rewrite IH. unfold aspect_out.
    cbn [bind emit ret app length repeat]. rewrite app_nil_r.
    split; [reflexivity|]. cbn. now rewrite Hlen.
Qed.

Lemma houses_ok (l : list (PyVal F)) : forall t out,
  mapM (house_out B) l = (t, Ok out) ->
  t = repeat (Construct "HouseOut") (length l)
  /\ length out = length l
  /\ Forall (fun h => exists v, attr h "id" = Some v) l.
Proof.
  induction l as [|x r IH]; intros t out H.
  - cbn in H. inversion H; subst. repeat split. constructor.
  - cbn [mapM] in H. apply bind_ok_inv in H.
    destruct H as (t1 & a & t2 & Hx & Hrest & ->).
    apply bind_ok_inv in Hrest.
    destruct Hrest as (t3 & ys & t4 & Hr & Hret & ->).
    cbn in Hret. inversion Hret; subst. clear Hret.
    destruct (IH _ _ Hr) as (-> & Hlen & Hall).
    unfold house_out, getattr in Hx.
    destruct (attr x "id") as [v|] eqn:Hid; [|discriminate].
    cbn [lift bind] in Hx.
    destruct (py_int B v) as [n|e]; [|discriminate].
    cbn [bind emit ret app] in Hx. inversion Hx; subst.
    cbn. rewrite app_nil_r, Hlen. repeat split. constructor; eauto.
Qed.

(** X9.  A summary that [_to_summary] returns was built by asking the
    library for the Sun and then for the Moon, building one [AspectOut]
    for each aspect of the chart and one [HouseOut] for each house, in this
    order, and the summary record last; so the lists of the summary are as
    long as the chart's. *)
Theorem summary_built_item_by_item chart inp iso t summary :
  _to_summary B L chart inp iso = (t, Ok summary) ->
  exists aspects houses,
    py_iter (getattr_default chart "aspects" (PyList [])) = Ok aspects
    /\ py_iter (getattr_default chart "houses" (PyList [])) = Ok houses
    /\ length (sum_aspects summary) = length aspects
    /\ length (sum_houses summary) = length houses
    /\ t = (body_events F "Sun" (sum_sun summary)
            ++ body_events F "Moon" (sum_moon summary)
            ++ repeat (Construct "AspectOut") (length aspects)
            ++ repeat (Construct "HouseOut") (length houses)
            ++ [Construct "ChartSummaryOut"])%list.
Proof.
  intros H. unfold _to_summary in H.
  apply bind_ok_inv in H. destruct H as (t1 & sun & r1 & Hsun & H & ->).
  apply bind_ok_inv in H. destruct H as (t2 & moon & r2 & Hmoon & H & ->).
  apply bind_ok_inv in H. destruct H as (t3 & asps & r3 & Hasps & H & ->).
  apply bind_ok_inv in H. destruct H as (t4 & aout & r4 & Haout & H & ->).
  apply bind_ok_inv in H. destruct H as (t5 & hs & r5 & Hhs & H & ->).
  apply bind_ok_inv in H. destruct H as (t6 & hout & r6 & Hhout & H & ->).
  cbn in H. inversion H; subst. clear H.
  apply safe_get_body_ok in Hsun, Hmoon. subst t1 t2.
  unfold lift in Hasps, Hhs. inversion Hasps; subst. inversion Hhs; subst.
  destruct (aspects_total asps) as (aout' & Ha & Hlen).
  rewrite Ha in Haout. inversion Haout; subst.
  destruct (houses_ok _ Hhout) as (-> & Hlenh & _).
  exists asps, hs. cbn [sum_aspects sum_houses sum_sun sum_moon].
  repeat split; auto.
Qed.

(** X10.  One house without an [id] makes [_to_summary] fail: no summary
    is returned, although an aspect without any attribute is shaped into a
    record of empty strings. *)
Theorem house_without_id_aborts chart inp iso houses h :
  py_iter (getattr_default chart "houses" (PyList [])) = Ok houses ->
  In h houses ->
  attr h "id" = None ->
  (forall t summary, _to_summary B L chart inp iso <> (t, Ok summary))
  /\ forall asp,
       (forall n, attr asp n = None) ->
       aspect_out B asp
       = ([Construct "AspectOut"],
          Ok {| asp_body1 := EmptyString; asp_symbol := EmptyString;
                asp_body2 := EmptyString; asp_orb := EmptyString |}).
Proof.
  intros Hit Hin Hid. split.
  - intros t summary H. unfold _to_summary in H.
    apply bind_ok_inv in H. destruct H as (t1 & sun & r1 & Hsun & H & ->).
    apply bind_ok_inv in H. destruct H as (t2 & moon & r2 & Hmoon & H & ->).
    apply bind_ok_inv in H. destruct H as (t3 & asps & r3 & Hasps & H & ->).
    apply bind_ok_inv in H. destruct H as (t4 & aout & r4 & Haout & H & ->).
    apply bind_ok_inv in H. destruct H as (t5 & hs & r5 & Hhs & H & ->).
    apply bind_ok_inv in H. destruct H as (t6 & hout & r6 & Hhout & H & ->).
    unfold lift in Hhs. inversion Hhs; subst.
    rewrite Hit in *. match goal with Hx : Ok _ = Ok _ |- _ => inversion Hx; subst end.
    destruct (houses_ok _ Hhout) as (_ & _ & Hall).
    rewrite Forall_forall in Hall. destruct (Hall _ Hin) as (v & Hv).
    congruence.
  - intros asp Hno. unfold aspect_out, getattr_default. rewrite !Hno.
    reflexivity.
Qed.

End Summary.

(* ===================================================================== *)
(** ** The stages of a run *)

Section Run.

Variable F : Type.
Variable B : PyBuiltins F.
Variable L : Nataly F.
Variable E : OsEnv.

Lemma filter_none {A} (f : A -> bool) l :
  Forall (fun x => f x = false) l -> filter f l = [].
Proof.
  induction 1 as [|x l Hx _ IH]; [reflexivity|]. cbn. now rewrite Hx.
Qed.

Lemma filter_all {A} (f : A -> bool) l :
  Forall (fun x => f x = true) l -> filter f l = l.
Proof.
  induction 1 as [|x l Hx _ IH]; [reflexivity|]. cbn. now rewrite Hx, IH.
Qed.

Lemma build_work inp :
  Forall (fun e => is_work e = true) (trace (_build_chart L E inp)).
Proof.
  eapply Forall_impl; [|apply build_events].
  intros [| | | |c|] He; cbn in He; try contradiction. reflexivity.
Qed.

Lemma nested_work (t : list (Event F)) :
  Forall (fun e => is_nested_event e = true) t ->
  Forall (fun e => is_work e = true) t.
Proof.
  apply Forall_impl. intros [| | | |c|] He; cbn in He; try discriminate;
    reflexivity.
Qed.

Lemma summary_work chart inp iso :
  Forall (fun e => is_work e = true) (trace (_to_summary B L chart inp iso)).
Proof.
  unfold _to_summary.
  apply Forall_bind; [apply nested_work, safe_get_body_events|intros sun _].
  apply Forall_bind; [apply nested_work, safe_get_body_events|intros moon _].
  apply Forall_bind; [apply Forall_lift|intros asps _].
  apply Forall_bind; [apply nested_work, aspects_events|intros aout _].
  apply Forall_bind; [apply Forall_lift|intros hs _].
  apply Forall_bind; [apply nested_work, houses_events|intros hout _].
  apply Forall_bind; [|intros; apply Forall_ret].
  apply Forall_emit. reflexivity.
Qed.

Lemma text_stage_prints (b : bool) summary :
  Forall (fun e => is_print e = true)
         (trace (if b then _print_text B summary else ret tt)).
Proof.
  destruct b; [apply text_events|constructor].
Qed.

Lemma json_stage_cases (b : bool) (payload : PyVal F) :
  (trace (if b then print_json payload else ret tt) = []
   /\ (b = true ->
       exists e, outcome (if b then print_json payload else ret tt)
                 = Raise e))
  \/ (b = true
      /\ (if b then print_json payload else ret tt)
         = ([PrintJson payload], Ok tt)).
Proof.
  destruct b; [|left; split; [reflexivity|discriminate]].
  unfold print_json. destruct (json_type_error payload).
  - left. split; [reflexivity|]. intros _. cbn. eauto.
  - right. split; reflexivity.
Qed.

(** How a run ends when the command line is not accepted. *)
Lemma run_cases argv :
  main B L E argv = ([Argparse HelpText], Raise (SystemExit 0))
  \/ (exists e, main B L E argv
                = ([Argparse (UsageAndError e)], Raise (SystemExit 2)))
  \/ (exists msg, main B L E argv
                  = ([PrintErr ("[nataly plugin] Error: " ++ msg)], Ok 1%Z))
  \/ (exists inp, _parse_args B argv = ([Construct "PluginInput"], Ok inp)).
Proof.
  destruct (parse_args B parser argv) as [fields| |e] eqn:Hp.
  - destruct (parse_args_shape _ _ Hp)
      as (p & b & tz & lat & lon & hs & ep & fmt & ->
          & _ & _ & _ & Hlat & Hlon & _).
    pose proof (_parse_args_namespace _ _ Hp) as Hn.
    destruct (tz_re_match (PyStr.strip (py_str B tz)));
      [|right; right; left; eexists; eapply main_rejected; exact Hn].
    destruct (py_float_entry B Hlat) as [(la & -> & Hla)|(-> & Hla)];
      rewrite Hla in Hn;
      [|right; right; left; eexists; eapply main_rejected; exact Hn].
    destruct (py_float_entry B Hlon) as [(lo & -> & Hlo)|(-> & Hlo)];
      rewrite Hlo in Hn;
      [|right; right; left; eexists; eapply main_rejected; exact Hn].
    right. right. right. eauto.
  - left. unfold main, pipeline, _parse_args. rewrite Hp. reflexivity.
  - right. left. exists e. unfold main, pipeline, _parse_args. rewrite Hp.
    reflexivity.
Qed.

(** The events of an accepted run: the input record, the work of
    [_build_chart] and [_to_summary], the text lines, the JSON document
    and the error line. *)
Lemma run_stages argv inp :
  _parse_args B argv = ([Construct "PluginInput"], Ok inp) ->
  exists work text json err,
    trace (main B L E argv)
    = (Construct "PluginInput" :: work ++ text ++ json ++ err)%list
    /\ Forall (fun e => is_work e = true) work
    /\ Forall (fun e => is_print e = true) text
    /\ (one_of (in_output_format inp) ["text"; "both"] = false -> text = [])
    /\ (one_of (in_output_format inp) ["json"; "both"] = false -> json = [])
    /\ ((json = [] /\ (outcome (main B L E argv) = Ok 0%Z ->
                       one_of (in_output_format inp) ["json"; "both"] = false))
        \/ (exists s, json = [PrintJson (_to_jsonable s)])
           /\ outcome (main B L E argv) = Ok 0%Z)
    /\ ((err = []
         /\ (outcome (main B L E argv) = Ok 0%Z
             \/ exists e, outcome (main B L E argv) = Raise e))
        \/ ((exists msg, err = [PrintErr ("[nataly plugin] Error: " ++ msg)])
            /\ outcome (main B L E argv) = Ok 1%Z)).
Proof.
  intros Hparse. unfold main, pipeline. rewrite Hparse. cbn [bind].
  pose proof (build_work inp) as Hbw.
  destruct (_build_chart L E inp) as [tb [[chart iso]|eb]] eqn:Hb;
    cbn [trace fst] in Hbw; cbn [bind].
  2:{ exists tb, [], [], (match eb with
                          | Exception _ msg =>
                              [PrintErr ("[nataly plugin] Error: " ++ msg)]
                          | _ => []
                          end).
      destruct eb as [c m|code|c m];
        cbn [bind try_except app trace outcome fst snd emit ret];
        rewrite ?app_nil_r; repeat split; auto;
        try apply Forall_nil;
        try (left; split; [reflexivity|discriminate]);
        try (left; split; [reflexivity|right; eauto]; fail).
      right. split; eauto. }
  pose proof (summary_work chart inp iso) as Hsw.
  destruct (_to_summary B L chart inp iso) as [ts [s|es]] eqn:Hs;
    cbn [trace fst] in Hsw; cbn [bind].
  2:{ exists (tb ++ ts)%list, [], [],
        (match es with
         | Exception _ msg => [PrintErr ("[nataly plugin] Error: " ++ msg)]
         | _ => []
         end).
      destruct es as [c m|code|c m];
        cbn [bind try_except app trace outcome fst snd emit ret];
        rewrite ?app_nil_r, <- ?app_assoc; repeat split; auto;
        try apply Forall_nil;
        try (apply Forall_app; split; assumption);
        try (left; split; [reflexivity|discriminate]);
        try (left; split; [reflexivity|right; eauto]; fail).
      right. split; eauto. }
  pose proof (text_stage_prints
                (one_of (in_output_format inp) ["text"; "both"]) s) as Htp.
  assert (Htn : one_of (in_output_format inp) ["text"; "both"] = false ->
                trace (if one_of (in_output_format inp) ["text"; "both"]
                       then _print_text B s else ret tt) = []).
  { intros ->. reflexivity. }
  destruct (if one_of (in_output_format inp) ["text"; "both"]
            then _print_text B s else ret tt) as [tx [u|ex]] eqn:Hx;
    cbn [trace fst] in Htp, Htn; cbn [bind].
  2:{ exists (tb ++ ts)%list, tx, [],
        (match ex with
         | Exception _ msg => [PrintErr ("[nataly plugin] Error: " ++ msg)]
         | _ => []
         end).
      destruct ex as [c m|code|c m];
        cbn [bind try_except app trace outcome fst snd emit ret];
        rewrite ?app_nil_r, <- ?app_assoc; repeat split; auto;
        try apply Forall_nil;
        try (apply Forall_app; split; assumption);
        try (left; split; [reflexivity|discriminate]);
        try (left; split; [reflexivity|right; eauto]; fail).
      right. split; eauto. }
  destruct u.
  destruct (json_stage_cases
              (one_of (in_output_format inp) ["json"; "both"])
              (_to_jsonable s)) as [[Hj Hje]|[Hjb Hj]].
  - assert (Hjn : one_of (in_output_format inp) ["json"; "both"] = false ->
                  outcome (if one_of (in_output_format inp) ["json"; "both"]
                           then print_json (_to_jsonable s) else ret tt)
                  = Ok tt).
    { intros ->. reflexivity. }
    destruct (if one_of (in_output_format inp) ["json"; "both"]
              then print_json (_to_jsonable s) else ret tt)
      as [tj [u|ej]] eqn:Hjs; cbn [trace outcome fst snd] in Hj, Hje, Hjn;
      subst tj.
    + destruct u.
      exists (tb ++ ts)%list, tx, [], [].
      cbn [bind try_except app trace outcome fst snd emit ret].
      rewrite ?app_nil_r, <- ?app_assoc. repeat split; auto.
      * apply Forall_app; split; assumption.
      * left. split; [reflexivity|]. intros _.
        destruct (one_of (in_output_format inp) ["json"; "both"]); auto.
        destruct (Hje eq_refl) as (e & He). discriminate.
    + exists (tb ++ ts)%list, tx, [],
        (match ej with
         | Exception _ msg => [PrintErr ("[nataly plugin] Error: " ++ msg)]
         | _ => []
         end).
      destruct ej as [c m|code|c m];
        cbn [bind try_except app trace outcome fst snd emit ret];
        rewrite ?app_nil_r, <- ?app_assoc; repeat split; auto;
        try apply Forall_nil;
        try (apply Forall_app; split; assumption);
        try (left; split; [reflexivity|discriminate]);
        try (left; split; [reflexivity|right; eauto]; fail).
      right. split; eauto.
  - rewrite Hj. exists (tb ++ ts)%list, tx, [PrintJson (_to_jsonable s)], [].
    cbn [bind try_except app trace outcome fst snd emit ret].
    rewrite ?app_nil_r, <- ?app_assoc. repeat split; auto.
    + apply Forall_app; split; assumption.
    + intros H. rewrite H in Hjb. discriminate.
    + right. split; eauto.
Qed.

Lemma work_is_silent (t : list (Event F)) :
  Forall (fun e => is_work e = true) t ->
  Forall (fun e => is_print e = false) t
  /\ Forall (fun e => is_print_json e = false) t
  /\ stdout t = [] /\ stderr t = [].
Proof.
  intros H. repeat split;
    try (apply filter_none);
    (eapply Forall_impl; [|exact H]);
    intros [| | | | |] He; cbn in He; try discriminate; reflexivity.
Qed.

Lemma prints_are_stdout (t : list (Event F)) :
  Forall (fun e => is_print e = true) t ->
  Forall (fun e => is_print_json e = false) t
  /\ Forall (fun e => is_output e = true) t
  /\ Forall (fun e => is_work e = false) t
  /\ stdout t = t /\ stderr t = [].
Proof.
  intros H. repeat split;
    try (apply filter_none); try (apply filter_all);
    (eapply Forall_impl; [|exact H]);
    intros [| | | | |] He; cbn in He; try discriminate; reflexivity.
Qed.

(** X11.  The format selects the renderings.  With [text] no JSON
    document is printed.  With [json] no text line is printed, and
    standard output is all or nothing: exactly one JSON document, that of a
    summary, when [main] returns 0, and empty otherwise. *)
Theorem format_selects_renderings argv t inp :
  _parse_args B argv = (t, Ok inp) ->
  (in_output_format inp = "text" ->
   Forall (fun e => is_print_json e = false) (trace (main B L E argv)))
  /\ (in_output_format inp = "json" ->
      Forall (fun e => is_print e = false) (trace (main B L E argv))
      /\ ((outcome (main B L E argv) = Ok 0%Z
           /\ exists s, stdout (trace (main B L E argv))
                        = [PrintJson (_to_jsonable s)])
          \/ (outcome (main B L E argv) <> Ok 0%Z
              /\ stdout (trace (main B L E argv)) = []))).
Proof.
  intros Hparse.
  assert (Ht : t = [Construct "PluginInput"]).
  { apply _parse_args_ok in Hparse.
    destruct Hparse as (p & b & tz & la & lo & hs & ep & fmt
                        & _ & _ & _ & _ & Ht & _). exact Ht. }
  subst t.
  destruct (run_stages argv Hparse)
    as (work & text & json & err & -> & Hw & Htx & Htn & Hjn & Hj & He).
  destruct (work_is_silent Hw) as (Hwp & Hwj & Hwo & Hwe).
  destruct (prints_are_stdout Htx) as (Htj & _ & _ & Hto & _).
  split; intros Hf; rewrite Hf in *.
  - rewrite (Hjn eq_refl). cbn [app].
    constructor; [reflexivity|].
    apply Forall_app; split; [exact Hwj|].
    apply Forall_app; split; [exact Htj|].
    destruct He as [[-> _]|[(msg & ->) _]]; repeat constructor.
  - rewrite (Htn eq_refl) in *. cbn [app] in *. split.
    + constructor; [reflexivity|].
      apply Forall_app; split; [exact Hwp|].
      apply Forall_app; split.
      * destruct Hj as [[-> _]|[(s & ->) _]]; repeat constructor.
      * destruct He as [[-> _]|[(msg & ->) _]]; repeat constructor.
    + unfold stdout in *. cbn [filter is_stdout].
      rewrite !filter_app, Hwo. cbn [app].
      destruct Hj as [[-> Hno]|[(s & ->) H0]].
      * right. split; [intros H0; specialize (Hno H0); discriminate|].
        destruct He as [[-> _]|[(msg & ->) _]]; reflexivity.
      * left. split; [exact H0|]. exists s.
        destruct He as [[-> _]|[(msg & ->) H1]]; [reflexivity|].
        rewrite H0 in H1. discriminate.
Qed.

(** X12.  In every run all the work comes before all the output: the
    events of [main] are calls into the library and record constructions,
    followed by what is written to standard output and standard error.
    Nothing is computed after the first line is printed. *)
Theorem work_precedes_output argv :
  exists work out,
    trace (main B L E argv) = (work ++ out)%list
    /\ Forall (fun e => is_work e = true) work
    /\ Forall (fun e => is_output e = true) out
    /\ Forall (fun e => is_work e = false) out.
Proof.
  destruct (run_cases argv) as [H|[(e & H)|[(msg & H)|(inp & Hparse)]]].
  - exists [], [Argparse HelpText]. rewrite H. repeat constructor.
  - exists [], [Argparse (UsageAndError e)]. rewrite H. repeat constructor.
  - eexists [], [_]. rewrite H. repeat constructor.
  - destruct (run_stages argv Hparse)
      as (work & text & json & err & -> & Hw & Htx & _ & _ & Hj & He).
    destruct (prints_are_stdout Htx) as (_ & Hto & Htw & _).
    exists (Construct "PluginInput" :: work), (text ++ json ++ err)%list.
    split; [reflexivity|]. split; [constructor; [reflexivity|exact Hw]|].
    assert (Hje : Forall (fun e => is_output e = true) (json ++ err)
                  /\ Forall (fun e => is_work e = false) (json ++ err)).
    { destruct Hj as [[-> _]|[(s & ->) _]];
        destruct He as [[-> _]|[(msg & ->) _]]; split; repeat constructor. }
    split; apply Forall_app; split; tauto.
Qed.

(** X13.  Standard error receives at most one item in a run.  It stays
    empty when [main] returns 0; when [main] returns 1 the error line is
    the last event and the only one on standard error; when [main] raises,
    standard error is empty unless argparse refused the command line. *)
Theorem stderr_discipline argv :
  length (stderr (trace (main B L E argv))) <= 1
  /\ (outcome (main B L E argv) = Ok 0%Z ->
      stderr (trace (main B L E argv)) = [])
  /\ (outcome (main B L E argv) = Ok 1%Z ->
      exists pre msg,
        trace (main B L E argv)
        = (pre ++ [PrintErr ("[nataly plugin] Error: " ++ msg)])%list
        /\ stderr pre = [])
  /\ (forall e, outcome (main B L E argv) = Raise e ->
      stderr (trace (main B L E argv)) = []
      \/ exists err, e = SystemExit 2
                     /\ trace (main B L E argv)
                        = [Argparse (UsageAndError err)]).
Proof.
  destruct (run_cases argv) as [H|[(e & H)|[(msg & H)|(inp & Hparse)]]].
  - rewrite H. cbn. repeat split; try discriminate; auto.
  - rewrite H. cbn. repeat split; try discriminate; auto.
    intros e' He. inversion He; subst. right. eauto.
  - rewrite H. cbn. repeat split; try discriminate; auto.
    intros _. exists [], msg. split; reflexivity.
  - destruct (run_stages argv Hparse)
      as (work & text & json & err & Ht & Hw & Htx & _ & _ & Hj & He).
    destruct (work_is_silent Hw) as (_ & _ & _ & Hwe).
    destruct (prints_are_stdout Htx) as (_ & _ & _ & _ & Hte).
    assert (Hje : stderr json = []).
    { destruct Hj as [[-> _]|[(s & ->) _]]; reflexivity. }
    assert (Hpre : stderr (Construct "PluginInput" :: work ++ text ++ json)
                   = []).
    { unfold stderr in *. cbn [filter is_stderr].
      now rewrite !filter_app, Hwe, Hte, Hje. }
    assert (Hall : stderr (trace (main B L E argv)) = stderr err).
    { rewrite Ht. unfold stderr in *. cbn [filter is_stderr].
      cbn [filter is_stderr] in Hpre. rewrite !filter_app in *.
      now rewrite Hwe, Hte, Hje. }
    rewrite Hall.
    destruct He as [[-> Hout]|[(msg & ->) Hout]].
    + cbn. repeat split; auto.
      intros H1. destruct Hout as [H0|(e & H0)]; rewrite H0 in H1;
        discriminate.
    + rewrite Hout. cbn. repeat split; try discriminate; auto.
      intros _. exists (Construct "PluginInput" :: work ++ text ++ json)%list,
                msg.
      split; [|exact Hpre]. rewrite Ht. cbn [app].
      now rewrite <- !app_assoc.
Qed.

(** X14.  When no summary can be built, because [_build_chart] or
    [_to_summary] raises, nothing at all is written to standard output and
    [main] does not return 0. *)
Theorem no_output_without_summary argv t inp :
  _parse_args B argv = (t, Ok inp) ->
  (forall tb chart iso ts s,
     _build_chart L E inp = (tb, Ok (chart, iso)) ->
     _to_summary B L chart inp iso <> (ts, Ok s)) ->
  stdout (trace (main B L E argv)) = []
  /\ outcome (main B L E argv) <> Ok 0%Z.
Proof.
  intros Hparse Hno.
  assert (Ht : t = [Construct "PluginInput"]).
  { apply _parse_args_ok in Hparse.
    destruct Hparse as (p & b & tz & la & lo & hs & ep & fmt
                        & _ & _ & _ & _ & Ht & _). exact Ht. }
  subst t. unfold main, pipeline. rewrite Hparse. cbn [bind].
  pose proof (build_work inp) as Hbw.
  destruct (_build_chart L E inp) as [tb [[chart iso]|eb]] eqn:Hb;
    cbn [trace fst] in Hbw; cbn [bind].
  - pose proof (summary_work chart inp iso) as Hsw.
    specialize (Hno tb chart iso).
    destruct (_to_summary B L chart inp iso) as [ts [s|es]] eqn:Hs;
      cbn [trace fst] in Hsw; cbn [bind].
    + now destruct (Hno ts s eq_refl).
    + destruct (work_is_silent Hbw) as (_ & _ & Hbo & _).
      destruct (work_is_silent Hsw) as (_ & _ & Hso & _).
      unfold stdout in *.
      destruct es as [c m|code|c m];
        cbn [bind try_except app trace outcome fst snd emit ret filter
             is_stdout];
        rewrite ?filter_app, Hbo, Hso; split; try reflexivity; discriminate.
  - destruct (work_is_silent Hbw) as (_ & _ & Hbo & _).
    unfold stdout in *.
    destruct eb as [c m|code|c m];
      cbn [bind try_except app trace outcome fst snd emit ret filter
           is_stdout];
      rewrite ?filter_app, Hbo; split; try reflexivity; discriminate.
Qed.

End Run.

(* ===================================================================== *)
(** ** Rendering the distributions *)

Section Distributions.

Variable F : Type.
Variable B : PyBuiltins F.

Section Sorting.

Variable A : Type.




Hypothesis ltb_asym : forall x y,
  float_ltb B x y = true -> float_ltb B y x = false.
Hypothesis ltb_cotrans : forall x y z,
  float_ltb B x y = false -> float_ltb B y z = false ->
  float_ltb B x z = false.




End Sorting.








End Distributions.

(* ===================================================================== *)
(** ** When a rendering fails *)

Section RenderingFailures.

Variable F : Type.
Variable B : PyBuiltins F.

Lemma py_float_number v e :
  is_number v = true -> py_float B v = Raise e ->
  e = Exception "OverflowError" "int too large to convert to float".
Proof.
  destruct v; cbn; try discriminate; intros _.
  - destruct (float_of_int B _); intros H; inversion H; reflexivity.
  - destruct (float_of_int B z); intros H; inversion H; reflexivity.
Qed.

Lemma _get_sort_score_raises val e :
  _get_sort_score B val = Raise e ->
  e = Exception "OverflowError" "int too large to convert to float".
Proof.
  unfold _get_sort_score. destruct (is_number val) eqn:Hn.
  - now apply py_float_number.
  - destruct val; try discriminate.
    destruct (dict_get d "count") as [x|];
      [destruct (is_number x) eqn:?; [now apply py_float_number|]|];
      (destruct (dict_get d "value") as [y|];
       [destruct (is_number y) eqn:?; [now apply py_float_number|]|]);
      (destruct (dict_get d "score") as [z|];
       [destruct (is_number z) eqn:?; [now apply py_float_number|]|]);
      (destruct (dict_get d "weight") as [w|];
       [destruct (is_number w) eqn:?; [now apply py_float_number|]|]);
      discriminate.
Qed.

Lemma keyed_raises d e :
  keyed B d = Raise e ->
  e = Exception "OverflowError" "int too large to convert to float".
Proof.
  induction d as [|kv r IH]; cbn; [discriminate|].
  destruct (_get_sort_score B (snd kv)) as [s|e'] eqn:Hs.
  - destruct (keyed B r) as [l|e'']; [discriminate|].
    intros H. inversion H; subst. now apply IH.
  - intros H. inversion H; subst. now apply _get_sort_score_raises in Hs.
Qed.

(** [_print_dist] prints one line, or raises before it prints. *)
Lemma print_dist_cases label dist :
  (printable B dist
   /\ exists line, _print_dist B label dist = ([Print line], Ok tt))
  \/ (~ printable B dist
      /\ exists e, _print_dist B label dist = ([], Raise e)
                   /\ (e = Exception "OverflowError"
                             "int too large to convert to float"
                       \/ exists f : PyVal F, e = Exception "TypeError"
                                      ("'" ++ type_name f
                                       ++ "' object is not callable"))).
Proof.
  assert (Hother : (forall d, dist <> PyDict d) ->
            _print_dist B label dist
            = match attr dist "items" with
              | Some f => raise (Exception "TypeError"
                            ("'" ++ type_name f ++ "' object is not callable"))
              | None => emit (Print ("  " ++ PyStr.ljust 10 label ++ " "
                                     ++ py_str B dist))
              end
            /\ printable B dist = (attr dist "items" = None)).
  { intros Hd. destruct dist; try (split; reflexivity).
    now destruct (Hd d). }
  destruct dist as [| | | | | |d|cls attrs];
    try (destruct Hother as (-> & ->); [discriminate|];
         left; split; [reflexivity|eexists; reflexivity]).
  - cbn [printable _print_dist]. destruct (keyed B d) as [ks|e] eqn:Hk.
    + left. split; [eauto|]. eexists. reflexivity.
    + right. split; [intros (ks & H); discriminate|].
      exists e. split; [reflexivity|]. left. now apply keyed_raises in Hk.
  - destruct Hother as (-> & ->); [discriminate|].
    destruct (attr (PyObj cls attrs) "items") as [f|].
    + right. split; [discriminate|]. eexists. split; [reflexivity|].
      right. eauto.
    + left. split; [reflexivity|]. eexists. reflexivity.
Qed.

(** X16.  The text rendering of a summary that [_to_summary] built can
    fail only in its two distribution lines: it succeeds exactly when both
    distributions are printable, and otherwise raises the [OverflowError]
    of an integer score too large for a float, or the [TypeError] of an
    [items] attribute that cannot be called. *)
Theorem text_rendering_fails_only_on_distributions summary lat lon :
  sum_location summary = [("lat", lat); ("lon", lon)] ->
  (outcome (_print_text B summary) = Ok tt
   <-> printable B (sum_element_distribution summary)
       /\ printable B (sum_modality_distribution summary))
  /\ forall e,
       outcome (_print_text B summary) = Raise e ->
       e = Exception "OverflowError" "int too large to convert to float"
       \/ exists f : PyVal F, e = Exception "TypeError"
                          ("'" ++ type_name f ++ "' object is not callable").
Proof.
  intros Hloc. unfold _print_text. rewrite Hloc.
  cbn [location_get assoc String.eqb Ascii.eqb Bool.eqb].
  repeat (rewrite outcome_bind; cbn [outcome snd emit lift];
          rewrite ?print_body_outcome).
  destruct (print_dist_cases "element" (sum_element_distribution summary))
    as [(He & l1 & ->)|(He & e1 & -> & Hk1)]; cbn [outcome snd].
  - repeat (rewrite outcome_bind; cbn [outcome snd emit lift]).
    destruct (print_dist_cases "modality" (sum_modality_distribution summary))
      as [(Hm & l2 & ->)|(Hm & e2 & -> & Hk2)]; cbn [outcome snd].
    + repeat (rewrite outcome_bind; cbn [outcome snd emit lift];
              rewrite ?forM_emit; cbn [outcome snd]).
      rewrite ?forM_emit. cbn [outcome snd]. split; [tauto|discriminate].
    + split; [split; [discriminate|tauto]|].
      intros e H. inversion H; subst. exact Hk2.
  - split; [split; [discriminate|tauto]|].
    intros e H. inversion H; subst. exact Hk1.
Qed.











End RenderingFailures.

(* ===================================================================== *)
(** ** Negative offsets on the command line *)

(** Case analysis on a character known to be a digit. *)
Ltac digit_cases c H :=
  destruct c as [[] [] [] [] [] [] [] []];
  try (cbv in H; discriminate H); clear H.

(** Replaces [Re.deriv c r], for a digit [c] and a closed [r], by its
    value, which is the same for every digit. *)
Ltac deriv_digit c H :=
  match goal with
  | |- context [Re.deriv c ?r] =>
      let R := eval vm_compute in (Re.deriv "0"%char r) in
      let E := fresh "E" in
      assert (E : forall d, PyStr.isdigit d = true -> Re.deriv d r = R)
        by (let d := fresh "d" in
            let Hd := fresh "Hd" in
            intros d Hd; digit_cases d Hd; vm_compute; reflexivity);
      rewrite (E c H); clear E
  end.

Ltac deriv_char c :=
  match goal with
  | |- context [Re.deriv c ?r] =>
      let R := eval vm_compute in (Re.deriv c r) in
      change (Re.deriv c r) with R
  end.

Section NegativeOffsets.

Variable F : Type.
Variable B : PyBuiltins F.
Variable L : Nataly F.
Variable E : OsEnv.

Lemma digit_is_no_sign c :
  PyStr.isdigit c = true ->
  Ascii.eqb c "="%char = false /\ Ascii.eqb c " "%char = false.
Proof. intros H. digit_cases c H; split; reflexivity. Qed.

Lemma negative_number_rejects_offset h1 h2 m1 m2 :
  PyStr.isdigit h1 = true -> PyStr.isdigit h2 = true ->
  PyStr.isdigit m1 = true -> PyStr.isdigit m2 = true ->
  Re.fullmatch negative_number
    (String "-" (String h1 (String h2 (String ":"
       (String m1 (String m2 EmptyString))))))
  = false.
Proof.
  intros H1 H2 H3 H4. cbn [Re.fullmatch].
  deriv_char "-"%char.
  deriv_digit h1 H1. deriv_digit h2 H2.
  deriv_char ":"%char.
  deriv_digit m1 H3. deriv_digit m2 H4.
  vm_compute. reflexivity.
Qed.

(** argparse reads a negative offset as an option it does not know. *)
Lemma parse_optional_negative_offset s :
  tz_shape s -> PyStr.startswith s "-" = true ->
  parse_optional (F:=F) parser s = inl (TokO None s None s).
Proof.
  intros (sign & h1 & h2 & m1 & m2 & -> & _ & H1 & H2 & H3 & H4 & _) Hs.
  cbn [PyStr.startswith] in Hs. rewrite andb_true_r in Hs.
  apply Ascii.eqb_eq in Hs. subst sign.
  pose proof (@negative_number_rejects_offset _ _ _ _ H1 H2 H3 H4) as Hneg.
  destruct (@digit_is_no_sign _ H2) as (E2 & S2).
  destruct (@digit_is_no_sign _ H3) as (E3 & S3).
  destruct (@digit_is_no_sign _ H4) as (E4 & S4).
  assert (Heq : forall c, Ascii.eqb ":" c = false ->
                   Ascii.eqb "-" c = false ->
                   Ascii.eqb h2 c = false -> Ascii.eqb m1 c = false ->
                   Ascii.eqb m2 c = false ->
                   PyStr.contains c
                     (String h2 (String ":" (String m1
                        (String m2 EmptyString)))) = false).
  { intros c Hc _ Ha Hb Hd. cbn [PyStr.contains]. now rewrite Ha, Hb, Hd, Hc. }
  unfold parse_optional.
  set (tail := String h2 (String ":" (String m1 (String m2 EmptyString))))
    in *.
  assert (Hc1 : PyStr.contains "="%char tail = false).
  { apply Heq; auto. }
  assert (Hc2 : PyStr.contains " "%char tail = false).
  { apply Heq; auto. }
  clearbody tail.
  digit_cases h1 H1;
    cbn [is_dash negb Ascii.eqb Bool.eqb PyStr.contains orb];
    rewrite ?Hc1, ?Hc2;
    match goal with
    | |- context [existsb (String.eqb ?a) (all_option_strings parser)] =>
        replace (existsb (String.eqb a) (all_option_strings (F:=F) parser))
          with false by (vm_compute; reflexivity);
        replace (get_option_tuples (F:=F) parser a)
          with (@nil (string * option string)) by (vm_compute; reflexivity)
    end;
    rewrite Hneg; reflexivity.
Qed.

Lemma classify_keeps_unknown s argv : forall toks,
  parse_optional (F:=F) parser s = inl (TokO None s None s) ->
  In s argv ->
  classify parser argv = inl toks ->
  Exists (fun t : Tok F => t = TokDashDash \/ exists o e r, t = TokO None o e r) toks.
Proof.
  intros toks Hs. revert toks.
  induction argv as [|a r IH]; intros toks Hin Hc; [contradiction|].
  cbn [classify] in Hc.
  destruct (String.eqb a "--").
  - inversion Hc; subst. constructor. now left.
  - destruct (parse_optional parser a) as [t|e] eqn:Ha; [|discriminate].
    destruct (classify parser r) as [ts|e]; [|discriminate].
    inversion Hc; subst. destruct Hin as [->|Hin].
    + rewrite Hs in Ha. inversion Ha; subst. constructor. right. eauto.
    + apply Exists_cons_tl. now apply IH.
Qed.

(** A string that no action takes stays among the extras. *)
Lemma consume_keeps_extras (p : list (Argument F)) n : forall toks st st',
  length toks <= n ->
  consume B p toks st = inr st' ->
  ps_extras st <> []
  \/ Exists (fun t : Tok F => t = TokDashDash \/ exists o e r, t = TokO None o e r)
            toks ->
  ps_extras st' <> [].
Proof.
  assert (Hextra : forall s (st : ParseState F), ps_extras (extra s st) <> []).
  { intros s st. cbn. now destruct (ps_extras st). }
  assert (Hstore : forall a os v st st1,
            take_store B a os v st = inl st1 ->
            ps_extras st1 = ps_extras st).
  { intros a os v st st1 H. unfold take_store in H.
    destruct (String.eqb v "--"); [|destruct (get_value B a os v)];
      inversion H; subst; reflexivity. }
  induction n as [|n IH]; intros toks st st' Hlen Hc Hbad.
  - destruct toks; [|cbn in Hlen; lia]. cbn in Hc. inversion Hc; subst.
    destruct Hbad as [H|H]; [exact H|inversion H].
  - destruct toks as [|t rest].
    { cbn in Hc. inversion Hc; subst.
      destruct Hbad as [H|H]; [exact H|inversion H]. }
    cbn [length] in Hlen.
    destruct t as [s| |[a|] os explicit raw]; cbn [consume] in Hc;
      try (eapply IH; [|exact Hc|left; apply Hextra]; lia).
    assert (Hrest : ps_extras st <> []
                    \/ Exists (fun t : Tok F => t = TokDashDash
                                        \/ exists o e r, t = TokO None o e r)
                              rest).
    { destruct Hbad as [H|H]; [now left|right].
      inversion H as [? ? [H1|(o & e & r & H1)]|]; subst;
        [discriminate|discriminate|assumption]. }
    destruct (kind a).
    + destruct explicit as [e|].
      * destruct (take_store B a os e st) as [st1|err] eqn:Ht;
          [|discriminate].
        eapply IH; [|exact Hc|]; [lia|].
        rewrite (Hstore _ _ _ _ _ Ht). exact Hrest.
      * destruct rest as [|[v| |] rest']; try discriminate.
        destruct (take_store B a os v st) as [st1|err] eqn:Ht;
          [|discriminate].
        eapply IH; [|exact Hc|]; [cbn [length] in Hlen; lia|].
        rewrite (Hstore _ _ _ _ _ Ht).
        destruct Hrest as [H|H]; [now left|right].
        inversion H as [? ? [H1|(o & e & r & H1)]|]; subst;
          [discriminate|discriminate|assumption].
    + destruct explicit as [e|]; [destruct (flag_chain p os e)|];
        discriminate.
Qed.

(** X18.  A negative offset cannot be passed as an argument of its own:
    argparse reads a string such as [-05:00] as an option it does not
    know, so a command line that contains one is never accepted and
    [main] leaves with the [SystemExit] of argparse.  Joined to the option
    with [=], any value is read as the value of [--tz]. *)
Theorem negative_offset_needs_equals_form argv s :
  tz_shape s -> PyStr.startswith s "-" = true ->
  (In s argv ->
   main B L E argv = ([Argparse HelpText], Raise (SystemExit 0))
   \/ exists e, main B L E argv
                = ([Argparse (UsageAndError e)], Raise (SystemExit 2)))
  /\ parse_optional (F:=F) parser ("--tz=" ++ s)
     = inl (TokO (lookup_option parser "--tz") "--tz" (Some s)
                 ("--tz=" ++ s))
  /\ option_map (@dest F) (lookup_option parser "--tz") = Some "tz".
Proof.
  intros Hshape Hneg. split; [|split; reflexivity].
  intros Hin.
  destruct (parse_args B parser argv) as [fields| |e] eqn:Hp.
  - exfalso.
    destruct (parse_args_state _ _ Hp) as (toks & st & Hc & Hs & _).
    pose proof (classify_keeps_unknown argv
                  (parse_optional_negative_offset Hshape Hneg) Hin Hc) as Hex.
    assert (Hne : ps_extras st <> []).
    { eapply consume_keeps_extras; [apply le_n|exact Hs|right; exact Hex]. }
    unfold parse_args in Hp. rewrite Hc, Hs in Hp.
    destruct (filter _ parser); [|discriminate].
    destruct (ps_extras st); [now destruct Hne|discriminate].
  - left. unfold main, pipeline, _parse_args. rewrite Hp. reflexivity.
  - right. exists e. unfold main, pipeline, _parse_args. rewrite Hp.
    reflexivity.
Qed.

End NegativeOffsets.

(* ===================================================================== *)
(** ** The pattern, and what the summary reports *)


Section Reported.

Variable F : Type.
Variable B : PyBuiltins F.
Variable L : Nataly F.
Variable E : OsEnv.

Lemma call_ok_inv {A} (c : LibCall F) (r : Result A) t a :
  call c r = (t, Ok a) -> t = [Call c] /\ r = Ok a.
Proof.
  unfold call. destruct r as [x|e]; cbn; intros H; inversion H; subst.
  split; reflexivity.
Qed.

(** X20.  The summary reports what the chart was computed for: its person
    and its coordinates are those given to [NatalChart], and its timestamp
    is the [isoformat] of the very datetime that [to_utc] returned and
    [NatalChart] received.  The four calls of [_build_chart] happen in the
    order [to_utc], [isoformat], [create_orb_config], [NatalChart]. *)
Theorem summary_reports_chart_inputs inp tb chart iso ts summary :
  _build_chart L E inp = (tb, Ok (chart, iso)) ->
  _to_summary B L chart inp iso = (ts, Ok summary) ->
  exists dt orb lat lon,
    tb = [Call (Call_to_utc (in_birth inp) (in_tz inp));
          Call (Call_isoformat dt);
          Call (Call_create_orb_config (in_house_system inp));
          Call (Call_NatalChart (sum_person summary) dt lat lon orb
                  (_resolve_ephe_path E (in_ephe_path inp)))]
    /\ sum_location summary = [("lat", lat); ("lon", lon)]
    /\ to_utc L (in_birth inp) (in_tz inp) = Ok dt
    /\ isoformat L dt = Ok (sum_dt_utc_iso summary)
    /\ create_orb_config L (in_house_system inp) = Ok orb
    /\ NatalChart L (sum_person summary) dt lat lon orb
         (_resolve_ephe_path E (in_ephe_path inp)) = Ok chart.
Proof.
  intros Hb Hs.
  apply _to_summary_ok in Hs.
  destruct Hs as (t' & _ & _ & Hperson & Hiso & Hloc).
  rewrite Hperson, Hiso, Hloc. clear Hperson Hiso Hloc.
  unfold _build_chart in Hb.
  apply bind_ok_inv in Hb. destruct Hb as (t1 & dt & r1 & H1 & Hb & ->).
  apply bind_ok_inv in Hb. destruct Hb as (t2 & iso' & r2 & H2 & Hb & ->).
  apply bind_ok_inv in Hb. destruct Hb as (t3 & orb & r3 & H3 & Hb & ->).
  apply bind_ok_inv in Hb. destruct Hb as (t4 & ch & r4 & H4 & Hb & ->).
  cbn in Hb. inversion Hb; subst. clear Hb.
  apply call_ok_inv in H1, H2, H3, H4.
  destruct H1 as (-> & H1), H2 as (-> & H2), H3 as (-> & H3),
           H4 as (-> & H4).
  exists dt, orb, (in_lat inp), (in_lon inp). repeat split; auto.
Qed.

End Reported.

(* ===================================================================== *)
(** ** Runs on concrete command lines *)

(** C1, as stated, fails: [" +02:00"] does not match the pattern, yet it
    passes validation and the run returns 0. *)
Lemma tz_with_whitespace_is_accepted :
  tz_re_match " +02:00" = false
  /\ outcome (_parse_args Demo.builtins (Demo.argv " +02:00"))
     = Ok {| in_person := "Ada"; in_birth := "1990-01-01 12:00";
             in_tz := "+02:00"; in_lat := 41%Z; in_lon := 29%Z;
             in_house_system := "Placidus"; in_ephe_path := None;
             in_output_format := "text" |}
  /\ outcome (Demo.run 0 true (Demo.argv " +02:00")) = Ok 0%Z
  /\ stderr (trace (Demo.run 0 true (Demo.argv " +02:00"))) = [].
Proof. repeat split; vm_compute; reflexivity. Qed.

Lemma tz_validation_of_stripped_value_witness :
  Demo.run 0 true (Demo.argv "+2:00")
  = ([PrintErr "[nataly plugin] Error: Invalid --tz value: +2:00. Expected format like +02:00"],
     Ok 1%Z)
  /\ exists inp,
       _parse_args Demo.builtins (Demo.argv "  -05:30 ")
       = ([Construct "PluginInput"], Ok inp)
       /\ in_tz inp = "-05:30".
Proof.
  split.
  - apply (tz_validation_of_stripped_value Demo.builtins (Demo.nataly 0 true)
             (Demo.os None false) (Demo.argv "+2:00")
             (v := PyStr "+2:00") eq_refl eq_refl).
    reflexivity.
  - apply (proj2 (proj2 (proj2
             (tz_validation_of_stripped_value Demo.builtins
                (Demo.nataly 0 true) (Demo.os None false)
                (Demo.argv "  -05:30 ") (v := PyStr "  -05:30 ")
                eq_refl eq_refl) eq_refl)) 41%Z 29%Z eq_refl eq_refl).
Defined.

(** C2, as stated, fails: without arguments argparse raises
    [SystemExit(2)], which [main] does not catch; nothing is returned and
    the output on standard error is the usage message of argparse. *)
Lemma main_propagates_SystemExit :
  Demo.run 0 true []
  = ([Argparse (UsageAndError
        (RequiredArguments ["--person"; "--birth"; "--tz"; "--lat"; "--lon"]))],
     Raise (SystemExit 2))
  /\ Demo.run 0 true ["--help"] = ([Argparse HelpText], Raise (SystemExit 0)).
Proof. split; vm_compute; reflexivity. Qed.

Lemma main_exit_codes_witness :
  Demo.run 0 true (Demo.argv "+02:00" ++ ["--format"; "json"])%list
  = (trace (pipeline Demo.builtins (Demo.nataly 0 true) (Demo.os None false)
              (Demo.argv "+02:00" ++ ["--format"; "json"])%list),
     Ok 0%Z).
Proof.
  eapply (proj1 (main_exit_codes Demo.builtins (Demo.nataly 0 true)
                   (Demo.os None false) _)).
  vm_compute. reflexivity.
Defined.

Lemma json_output_has_record_shape_witness :
  exists pre payload,
    trace (Demo.run 2 true (Demo.argv "+02:00" ++ ["--format"; "json"])%list)
    = (pre ++ [PrintJson payload])%list
    /\ Forall (fun e => is_print_json e = false) pre
    /\ summary_shape payload.
Proof.
  eapply (json_output_has_record_shape Demo.builtins (Demo.nataly 2 true)
            (Demo.os None false) _ (t := [Construct "PluginInput"])).
  - vm_compute. reflexivity.
  - vm_compute. reflexivity.
  - vm_compute. reflexivity.
Defined.


(** C5, as stated, fails: with a library that raises [KeyError] for every
    body, the run asks for both bodies, reports nothing on standard error
    and returns 0; the JSON document has null placements. *)
Lemma missing_bodies_run_returns_0 :
  outcome (Demo.run 0 false (Demo.argv "+02:00")) = Ok 0%Z
  /\ stderr (trace (Demo.run 0 false (Demo.argv "+02:00"))) = []
  /\ calls (trace (_to_summary Demo.builtins (Demo.nataly 0 false)
                     (Demo.chart 0)
                     {| in_person := "Ada"; in_birth := "1990-01-01 12:00";
                        in_tz := "+02:00"; in_lat := 41%Z; in_lon := 29%Z;
                        in_house_system := "Placidus"; in_ephe_path := None;
                        in_output_format := "text" |}
                     "1990-01-01 12:00 +02:00"))
     = [Call (Call_get_body_by_name "Sun"); Call (Call_get_body_by_name "Moon")].
Proof. repeat split; vm_compute; reflexivity. Qed.

Lemma missing_body_is_absorbed_witness :
  _safe_get_body Demo.builtins (Demo.nataly 0 false) (Demo.chart 0) "Sun"
  = ([Call (Call_get_body_by_name "Sun")], Ok None).
Proof.
  exact (proj1 (missing_body_is_absorbed Demo.builtins (Demo.nataly 0 false)
                  (Demo.chart 0) "Sun" (cls := "KeyError") (msg := "'Sun'")
                  eq_refl)).
Defined.



(** C7, as stated, fails: the value ["--"], given as [--format=--], is
    outside text, json and both, and yet it is not rejected: argparse
    stores the empty list, the output format becomes ["[]"], nothing is
    printed and the run returns 0. *)
Lemma format_dashes_is_accepted :
  outcome (_parse_args Demo.builtins (Demo.argv "+02:00" ++ ["--format=--"])%list)
  = Ok (ada "[]")
  /\ outcome (Demo.run 2 true (Demo.argv "+02:00" ++ ["--format=--"])%list)
     = Ok 0%Z
  /\ stdout (trace (Demo.run 2 true
                      (Demo.argv "+02:00" ++ ["--format=--"])%list)) = []
  /\ stderr (trace (Demo.run 2 true
                      (Demo.argv "+02:00" ++ ["--format=--"])%list)) = [].
Proof. repeat split; vm_compute; reflexivity. Qed.


(** C8, as stated, fails: a run that argparse ends constructs neither
    record. *)
Lemma rejected_run_constructs_no_record :
  constructions "PluginInput" (trace (Demo.run 0 true [])) = 0
  /\ constructions "ChartSummaryOut" (trace (Demo.run 0 true [])) = 0
  /\ constructions "PluginInput" (trace (Demo.run 0 true (Demo.argv "+2:00"))) = 0.
Proof. repeat split; vm_compute; reflexivity. Qed.

Lemma records_frozen_and_built_at_most_once_witness :
  constructions "PluginInput" (trace (Demo.run 3 true (Demo.argv "+02:00"))) = 1
  /\ constructions "ChartSummaryOut"
       (trace (Demo.run 3 true (Demo.argv "+02:00"))) = 1.
Proof.
  apply (proj2 (proj2 (proj2
           (records_frozen_and_built_at_most_once Demo.builtins
              (Demo.nataly 3 true) (Demo.os None false) (Demo.argv "+02:00"))))).
  vm_compute. reflexivity.
Defined.

Lemma text_prints_first_50_aspects_witness :
  length (firstn 50 (sum_aspects sixty_aspects))
  < length (map (AspectOut_asdict (F:=Z)) (sum_aspects sixty_aspects)).
Proof.
  apply (proj2 (proj2 (proj2
           (text_prints_first_50_aspects Demo.builtins sixty_aspects
              ltac:(vm_compute; reflexivity))))).
  vm_compute. lia.
Defined.

(** C10, as stated, fails: a stripped offset that matches does not make
    the invocation accepted.  With [--lat=--] argparse stores an empty
    list for the latitude, [float] refuses it, and the run ends with one
    error line and the exit code 1. *)
Lemma stripped_tz_does_not_ensure_acceptance :
  tz_re_match (PyStr.strip " +02:00 ") = true
  /\ _parse_args Demo.builtins
       ["--person"; "Ada"; "--birth"; "1990-01-01 12:00"; "--tz"; " +02:00 ";
        "--lat=--"; "--lon"; "29"]
     = ([], Raise (Exception "TypeError"
                     "float() argument must be a string or a real number, not 'list'"))
  /\ Demo.run 0 true
       ["--person"; "Ada"; "--birth"; "1990-01-01 12:00"; "--tz"; " +02:00 ";
        "--lat=--"; "--lon"; "29"]
     = ([PrintErr "[nataly plugin] Error: float() argument must be a string or a real number, not 'list'"],
        Ok 1%Z).
Proof. repeat split; vm_compute; reflexivity. Qed.


(* ===================================================================== *)
(** ** Further runs on concrete inputs *)

Lemma parsed_fields_are_stripped_witness :
  PyStr.strip (in_person (ada "text")) = in_person (ada "text")
  /\ PyStr.strip (in_birth (ada "text")) = in_birth (ada "text")
  /\ PyStr.strip (in_tz (ada "text")) = in_tz (ada "text")
  /\ PyStr.strip (in_house_system (ada "text")) = in_house_system (ada "text")
  /\ (forall p, in_ephe_path (ada "text") = Some p -> PyStr.strip p = p).
Proof.
  apply (parsed_fields_are_stripped Demo.builtins (Demo.argv " +02:00 ")
           (t := [Construct "PluginInput"])).
  vm_compute. reflexivity.
Defined.


Lemma required_arguments_enforced_witness :
  main Demo.builtins (Demo.nataly 0 true) (Demo.os None false)
       ["--person"; "Ada"]
  = ([Argparse HelpText], Raise (SystemExit 0))
  \/ exists e,
       main Demo.builtins (Demo.nataly 0 true) (Demo.os None false)
            ["--person"; "Ada"]
       = ([Argparse (UsageAndError e)], Raise (SystemExit 2)).
Proof.
  apply (required_arguments_enforced Demo.builtins (Demo.nataly 0 true)
           (Demo.os None false) (d := "tz") ["--person"; "Ada"]).
  - cbn. auto.
  - vm_compute. reflexivity.
Defined.

Lemma omitted_options_take_defaults_witness :
  omits Z "format" (Demo.argv "+02:00") = true
  /\ omits Z "ephe_path" (Demo.argv "+02:00") = true
  /\ in_output_format (ada "text") = "text"
  /\ in_ephe_path (ada "text") = None.
Proof.
  assert (H : _parse_args Demo.builtins (Demo.argv "+02:00")
              = ([Construct "PluginInput"], Ok (ada "text"))).
  { vm_compute. reflexivity. }
  assert (Hf : omits Z "format" (Demo.argv "+02:00") = true).
  { vm_compute. reflexivity. }
  assert (He : omits Z "ephe_path" (Demo.argv "+02:00") = true).
  { vm_compute. reflexivity. }
  destruct (omitted_options_take_defaults Demo.builtins _ H) as (H1 & H2).
  split; [exact Hf|]. split; [exact He|].
  split; [exact (H1 Hf)|exact (H2 He)].
Defined.

Lemma attributeless_body_placeholder_witness :
  _safe_get_body Demo.builtins bare_library bare_chart "Sun"
  = ([Call (Call_get_body_by_name "Sun"); Construct "BodyOut"],
     Ok (Some {| body_name := "Sun"; body_signed_dms := EmptyString;
                 body_house := None; body_declination_dms := None;
                 body_absolute_dms := None |})).
Proof.
  apply (proj1 (attributeless_body_placeholder Demo.builtins bare_library
                  bare_chart "Sun" (v := PyNone) eq_refl
                  (fun _ => eq_refl))).
Defined.

Lemma summary_built_item_by_item_witness :
  exists t summary (aspects houses : list (PyVal Z)),
    _to_summary Demo.builtins (Demo.nataly 3 true) (Demo.chart 3)
                (ada "text") "1990-01-01T10:00:00"
    = (t, Ok summary)
    /\ length aspects = 3 /\ length houses = 2
    /\ length (sum_aspects summary) = length aspects
    /\ length (sum_houses summary) = length houses
    /\ t = (body_events Z "Sun" (sum_sun summary)
            ++ body_events Z "Moon" (sum_moon summary)
            ++ repeat (Construct "AspectOut") (length aspects)
            ++ repeat (Construct "HouseOut") (length houses)
            ++ [Construct "ChartSummaryOut"])%list.
Proof.
  assert (H : exists t summary,
            _to_summary Demo.builtins (Demo.nataly 3 true) (Demo.chart 3)
                        (ada "text") "1990-01-01T10:00:00"
            = (t, Ok summary)).
  { eexists. eexists. vm_compute. reflexivity. }
  destruct H as (t & summary & H).
  destruct (summary_built_item_by_item _ _ _ _ _ H)
    as (aspects & houses & Ha & Hh & Hla & Hlh & Ht).
  exists t, summary, aspects, houses.
  vm_compute in Ha. inversion Ha; subst aspects.
  vm_compute in Hh. inversion Hh; subst houses.
  repeat split; auto.
Defined.

Lemma house_without_id_aborts_witness :
  (exists e,
     outcome (_to_summary Demo.builtins bare_library bare_chart
                          (ada "text") "1990-01-01T10:00:00")
     = Raise e)
  /\ aspect_out Demo.builtins PyNone
     = ([Construct "AspectOut"],
        Ok {| asp_body1 := EmptyString; asp_symbol := EmptyString;
              asp_body2 := EmptyString; asp_orb := EmptyString |}).
Proof.
  destruct (house_without_id_aborts Demo.builtins bare_library bare_chart
              (ada "text") "1990-01-01T10:00:00"
              (houses := [PyObj "House" []]) (PyObj "House" [])
              eq_refl (or_introl eq_refl) eq_refl) as (Hno & Hasp).
  split.
  - destruct (_to_summary Demo.builtins bare_library bare_chart
                          (ada "text") "1990-01-01T10:00:00")
      as [t [s|e]] eqn:H.
    + now destruct (Hno t s).
    + exists e. reflexivity.
  - apply Hasp. reflexivity.
Defined.

Lemma format_selects_renderings_witness :
  Forall (fun e => is_print e = false)
         (trace (Demo.run 2 true (Demo.argv "+02:00" ++ ["--format"; "json"])%list))
  /\ ((outcome (Demo.run 2 true
                  (Demo.argv "+02:00" ++ ["--format"; "json"])%list)
       = Ok 0%Z
       /\ exists s,
            stdout (trace (Demo.run 2 true
                             (Demo.argv "+02:00" ++ ["--format"; "json"])%list))
            = [PrintJson (_to_jsonable s)])
      \/ (outcome (Demo.run 2 true
                     (Demo.argv "+02:00" ++ ["--format"; "json"])%list)
          <> Ok 0%Z
          /\ stdout (trace (Demo.run 2 true
                              (Demo.argv "+02:00" ++ ["--format"; "json"])%list))
             = [])).
Proof.
  apply (proj2 (format_selects_renderings Demo.builtins (Demo.nataly 2 true)
                  (Demo.os None false)
                  (Demo.argv "+02:00" ++ ["--format"; "json"])%list
                  (t := [Construct "PluginInput"]) (inp := ada "json")
                  ltac:(vm_compute; reflexivity))).
  reflexivity.
Defined.

Lemma no_output_without_summary_witness :
  stdout (trace (main Demo.builtins bare_library (Demo.os None false)
                      (Demo.argv "+02:00"))) = []
  /\ outcome (main Demo.builtins bare_library (Demo.os None false)
                   (Demo.argv "+02:00")) <> Ok 0%Z.
Proof.
  apply (no_output_without_summary Demo.builtins bare_library
           (Demo.os None false) (Demo.argv "+02:00")
           (t := [Construct "PluginInput"]) (inp := ada "text")).
  - vm_compute. reflexivity.
  - intros tb chart iso ts s Hb. vm_compute in Hb.
    inversion Hb; subst. vm_compute. discriminate.
Defined.


Lemma text_rendering_fails_only_on_distributions_witness :
  (outcome (_print_text Demo.builtins sixty_aspects) = Ok tt
   <-> printable Demo.builtins (sum_element_distribution sixty_aspects)
       /\ printable Demo.builtins (sum_modality_distribution sixty_aspects))
  /\ forall e,
       outcome (_print_text Demo.builtins sixty_aspects) = Raise e ->
       e = Exception "OverflowError" "int too large to convert to float"
       \/ exists f : PyVal Z,
            e = Exception "TypeError"
                  ("'" ++ type_name f ++ "' object is not callable").
Proof.
  eapply (text_rendering_fails_only_on_distributions Demo.builtins
            sixty_aspects).
  reflexivity.
Defined.

Lemma negative_offset_needs_equals_form_witness :
  main Demo.builtins (Demo.nataly 0 true) (Demo.os None false)
       (Demo.argv "-05:00")
  = ([Argparse HelpText], Raise (SystemExit 0))
  \/ exists e,
       main Demo.builtins (Demo.nataly 0 true) (Demo.os None false)
            (Demo.argv "-05:00")
       = ([Argparse (UsageAndError e)], Raise (SystemExit 2)).
Proof.
  apply (proj1 (negative_offset_needs_equals_form Demo.builtins
                  (Demo.nataly 0 true) (Demo.os None false)
                  (Demo.argv "-05:00") (s := "-05:00")
                  ltac:(exists "-"%char, "0"%char, "5"%char, "0"%char,
                          "0"%char;
                        repeat split; try reflexivity;
                        [right; reflexivity|vm_compute; lia|vm_compute; lia])
                  eq_refl)).
  cbn. auto 10.
Defined.

Lemma summary_reports_chart_inputs_witness :
  exists tb chart iso ts summary dt orb lat lon,
    _build_chart (Demo.nataly 1 true) (Demo.os None false) (ada "text")
    = (tb, Ok (chart, iso))
    /\ _to_summary Demo.builtins (Demo.nataly 1 true) chart (ada "text") iso
       = (ts, Ok summary)
    /\ nth_error tb 3
       = Some (Call (Call_NatalChart (sum_person summary) dt lat lon orb None))
    /\ sum_location summary = [("lat", lat); ("lon", lon)]
    /\ isoformat (Demo.nataly 1 true) dt = Ok (sum_dt_utc_iso summary).
Proof.
  assert (Hb : exists tb chart iso,
            _build_chart (Demo.nataly 1 true) (Demo.os None false)
                         (ada "text")
            = (tb, Ok (chart, iso))).
  { do 3 eexists. vm_compute. reflexivity. }
  destruct Hb as (tb & chart & iso & Hb).
  assert (Hs : exists ts summary,
            _to_summary Demo.builtins (Demo.nataly 1 true) chart
                        (ada "text") iso
            = (ts, Ok summary)).
  { vm_compute in Hb. inversion Hb; subst.
    do 2 eexists. vm_compute. reflexivity. }
  destruct Hs as (ts & summary & Hs).
  destruct (summary_reports_chart_inputs Demo.builtins _ _ _ Hb Hs)
    as (dt & orb & lat & lon & Htb & Hloc & _ & Hiso & _).
  exists tb, chart, iso, ts, summary, dt, orb, lat, lon.
  subst tb. repeat split; auto.
Defined.
